(** * raw_noaa_batch_s3: decoding, enrichment and filtering of NOAA records

    A shallow embedding of [batch/campsite-weather-spark-s3/raw_noaa_batch_s3.py].

    Python values are an inductive type [pyval]; a call that may raise
    returns a [result]; [try: ... except: ...] is the combinator
    [try_except].  Python [float]s are IEEE 754 binary64 numbers, taken
    from [SpecFloat] (exact integer arithmetic, round to nearest even).
    A [str] is a [string]; its characters are the code points below 256.
    The builtins the script calls ([float], [datetime.strptime],
    [dict.get], slicing) are modelled after CPython 3. *)

From Stdlib Require Import ZArith String Ascii List Bool Lia SpecFloat.
From stdpp Require Import base option list gmap strings.

Set Warnings "-register-all".
Local Open Scope Z_scope.

(** ** Exceptions and results *)

Inductive exn : Type :=
| AttributeError
| TypeError
| ValueError
| OverflowError
| OSError.

Inductive result (A : Type) : Type :=
| Ok (a : A)
| Raise (e : exn).
Arguments Ok {A} a.
Arguments Raise {A} e.

#[global] Instance result_ret : MRet result := fun A a => Ok a.
#[global] Instance result_bind : MBind result := fun A B f m =>
  match m with
  | Ok a => f a
  | Raise e => Raise e
  end.

(** [try: body  except: handler] with a bare [except]: every exception
    of the body is caught. *)
Definition try_except {A : Type} (body handler : result A) : result A :=
  match body with
  | Ok a => Ok a
  | Raise _ => handler
  end.

Definition raises {A : Type} (r : result A) : Prop := ∃ e, r = Raise e.

(** ** Characters and slices *)

Definition code (c : ascii) : nat := nat_of_ascii c.

Definition in_range (lo hi : ascii) (c : ascii) : bool :=
  (code lo <=? code c)%nat && (code c <=? code hi)%nat.

Definition is_digit (c : ascii) : bool := in_range "0" "9" c.

Definition digit_val (c : ascii) : Z := Z.of_nat (code c) - 48.

(** [Py_ISSPACE]: blank, and the controls from tab to carriage return. *)
Definition Py_ISSPACE (c : ascii) : bool :=
  (code c =? 32)%nat || ((9 <=? code c)%nat && (code c <=? 13)%nat).

(** [Py_UNICODE_ISSPACE] (also [str.isspace] and the regular expression
    class [\s] on [str]) over the code points below 256. *)
Definition Py_UNICODE_ISSPACE (c : ascii) : bool :=
  Py_ISSPACE c
  || ((28 <=? code c)%nat && (code c <=? 31)%nat)
  || (code c =? 133)%nat || (code c =? 160)%nat.

Definition Py_TOLOWER (c : ascii) : ascii :=
  if in_range "A" "Z" c then ascii_of_nat (code c + 32) else c.

(** [s[a:b]] for literal bounds [0 <= a <= b]: Python truncates a slice
    at the end of the string and never raises. *)
Definition slice (a b : nat) (s : string) : string := substring a (b - a) s.

Definition chars (s : string) : list ascii := list_ascii_of_string s.

(** ** [float] *)

Definition prec : Z := 53.
Definition emax : Z := 1024.

Abbreviation pyfloat := spec_float.

(** The double nearest to [±m * 10^e] ([m >= 0]), as [_Py_dg_strtod]
    computes it: correctly rounded, overflow gives an infinity and
    underflow a zero or a subnormal. *)
Definition decimal_to_float (neg : bool) (m e : Z) : pyfloat :=
  match m with
  | Zpos p =>
      if 0 <=? e
      then binary_normalize prec emax ((if neg then Z.opp else id) (m * 10 ^ e)) 0 false
      else SFdiv prec emax (S754_finite neg p 0)
                           (S754_finite false (Z.to_pos (10 ^ (- e))) 0)
  | _ => S754_zero neg
  end.

Definition float_of_Z (z : Z) : pyfloat := binary_normalize prec emax z 0 false.

Definition ten : pyfloat := Eval vm_compute in float_of_Z 10.

(** True division of floats by the non-zero constant [10.0]. *)
Definition div10 (x : pyfloat) : pyfloat := SFdiv prec emax x ten.

(** [_PyUnicode_TransformDecimalAndSpaceToASCII], one character: below
    256 no character other than the ASCII digits is a decimal.  (CPython
    cuts the string after the first ["?"]; a string holding ["?"] is
    rejected either way.) *)
Definition to_ascii (c : ascii) : ascii :=
  if (code c <? 127)%nat then c
  else if Py_UNICODE_ISSPACE c then " "%char else "?"%char.

(** [_Py_string_to_number_with_underscores]: an underscore is accepted
    only between two digits, and is removed. *)
Fixpoint remove_underscores (prev : ascii) (l : list ascii) : option (list ascii) :=
  match l with
  | [] => if Ascii.eqb prev "_" then None else Some []
  | c :: l' =>
      if Ascii.eqb c "_" then
        if is_digit prev then remove_underscores c l' else None
      else if Ascii.eqb prev "_" && negb (is_digit c) then None
      else cons c <$> remove_underscores c l'
  end.

Fixpoint lstrip (l : list ascii) : list ascii :=
  match l with
  | c :: l' => if Py_ISSPACE c then lstrip l' else l
  | [] => []
  end.

Definition strip (l : list ascii) : list ascii := rev (lstrip (rev (lstrip l))).

Fixpoint span_digits (l : list ascii) : list ascii * list ascii :=
  match l with
  | c :: l' =>
      if is_digit c then let '(ds, r) := span_digits l' in (c :: ds, r)
      else ([], l)
  | [] => ([], [])
  end.

Definition digits_to_Z (ds : list ascii) : Z :=
  fold_left (fun a c => 10 * a + digit_val c) ds 0.

Definition parse_sign (l : list ascii) : bool * list ascii :=
  match l with
  | c :: r =>
      if Ascii.eqb c "-" then (true, r)
      else if Ascii.eqb c "+" then (false, r)
      else (false, l)
  | [] => (false, [])
  end.

Definition parse_exponent (l : list ascii) : Z * list ascii :=
  match l with
  | c :: r =>
      if Ascii.eqb (Py_TOLOWER c) "e" then
        let '(eneg, r1) := parse_sign r in
        let '(ed, r2) := span_digits r1 in
        match ed with
        | [] => (0, l)
        | _ => ((if eneg then - digits_to_Z ed else digits_to_Z ed), r2)
        end
      else (0, l)
  | [] => (0, [])
  end.

(** [_Py_dg_strtod]: sign, digits with at most one point, exponent.  The
    result is the value and the text left unread; [None] when there is
    no digit. *)
Definition dg_strtod (l : list ascii) : option (pyfloat * list ascii) :=
  let '(neg, l1) := parse_sign l in
  let '(ip, l2) := span_digits l1 in
  let '(fp, l3) :=
    match l2 with
    | c :: r => if Ascii.eqb c "." then span_digits r else ([], l2)
    | [] => ([], [])
    end in
  match ip ++ fp with
  | [] => None
  | ds =>
      let '(e, l4) := parse_exponent l3 in
      Some (decimal_to_float neg (digits_to_Z ds) (e - Z.of_nat (length fp)), l4)
  end.

(** [case_insensitive_match]: the rest of [l] after the lower-case word [t]. *)
Fixpoint ci_prefix (t l : list ascii) : option (list ascii) :=
  match t, l with
  | [], _ => Some l
  | a :: t', c :: l' => if Ascii.eqb (Py_TOLOWER c) a then ci_prefix t' l' else None
  | _ :: _, [] => None
  end.

(** [_Py_parse_inf_or_nan] *)
Definition parse_inf_or_nan (l : list ascii) : option (pyfloat * list ascii) :=
  let '(neg, l1) := parse_sign l in
  match ci_prefix (chars "inf") l1 with
  | Some r =>
      Some (S754_infinity neg,
            match ci_prefix (chars "inity") r with Some r' => r' | None => r end)
  | None =>
      match ci_prefix (chars "nan") l1 with
      | Some r => Some (S754_nan, r)
      | None => None
      end
  end.

Definition PyOS_string_to_double (l : list ascii) : option (pyfloat * list ascii) :=
  match dg_strtod l with
  | Some r => Some r
  | None => parse_inf_or_nan l
  end.

(** [float_from_string_inner]: surrounding blanks are dropped and the
    whole of the remaining text has to be read. *)
Definition float_from_string_inner (l : list ascii) : result pyfloat :=
  match PyOS_string_to_double (strip l) with
  | Some (x, []) => Ok x
  | _ => Raise ValueError
  end.

(** [float(s)] for a [str]. *)
Definition float_of_str (s : string) : result pyfloat :=
  match remove_underscores "000"%char (map to_ascii (chars s)) with
  | Some l => float_from_string_inner l
  | None => Raise ValueError
  end.

(** ** [datetime.datetime.strptime(s, "%Y%m%d %H%M")] *)

Inductive tzinfo : Type := UTC.

Record datetime : Type := mk_datetime {
  year : Z; month : Z; day : Z;
  hour : Z; minute : Z; second : Z; microsecond : Z;
  tz : option tzinfo
}.

(** [dt.replace(tzinfo=t)] *)
Definition replace_tzinfo (dt : datetime) (t : tzinfo) : datetime :=
  mk_datetime (year dt) (month dt) (day dt)
              (hour dt) (minute dt) (second dt) (microsecond dt) (Some t).

Definition is_leap (y : Z) : bool :=
  (y mod 4 =? 0) && (negb (y mod 100 =? 0) || (y mod 400 =? 0)).

Definition days_in_month (y m : Z) : Z :=
  if m =? 2 then (if is_leap y then 29 else 28)
  else if (m =? 4) || (m =? 6) || (m =? 9) || (m =? 11) then 30
  else 31.

(** [_strptime] turns the format into a regular expression and takes the
    first match of the backtracking matcher.  A matcher lists its
    matches in the order the [re] module tries them: the value read and
    the text left. *)
Definition matcher (A : Type) : Type := list ascii → list (A * list ascii).

Definition sat (p : ascii → bool) : matcher (list ascii) := fun s =>
  match s with
  | c :: r => if p c then [([c], r)] else []
  | [] => []
  end.

Definition alt {A : Type} (p q : matcher A) : matcher A := fun s => p s ++ q s.

Definition seq {A B C : Type} (f : A → B → C) (p : matcher A) (q : matcher B)
  : matcher C := fun s =>
  '(a, r) ← p s; '(b, r') ← q r; [(f a b, r')].

(** [pq]: two character classes in a row. *)
Definition two (p q : ascii → bool) : matcher (list ascii) :=
  seq app (sat p) (sat q).

Definition is_char (a : ascii) (c : ascii) : bool := Ascii.eqb c a.

(** [\s+], greedy: the longest run first, then each shorter one. *)
Fixpoint spaces1 (s : list ascii) : list (list ascii * list ascii) :=
  match s with
  | c :: r =>
      if Py_UNICODE_ISSPACE c
      then ((fun '(m, r') => (c :: m, r')) <$> spaces1 r) ++ [([c], r)]
      else []
  | [] => []
  end.

(** [(?P<Y>\d\d\d\d)] *)
Definition re_Y : matcher (list ascii) :=
  seq app (two is_digit is_digit) (two is_digit is_digit).

(** [(?P<m>1[0-2]|0[1-9]|[1-9])] *)
Definition re_m : matcher (list ascii) :=
  alt (two (is_char "1") (in_range "0" "2"))
 (alt (two (is_char "0") (in_range "1" "9"))
      (sat (in_range "1" "9"))).

(** [(?P<d>3[0-1]|[1-2]\d|0[1-9]|[1-9]| [1-9])] *)
Definition re_d : matcher (list ascii) :=
  alt (two (is_char "3") (in_range "0" "1"))
 (alt (two (in_range "1" "2") is_digit)
 (alt (two (is_char "0") (in_range "1" "9"))
 (alt (sat (in_range "1" "9"))
      (two (is_char " ") (in_range "1" "9"))))).

(** [(?P<H>2[0-3]|[0-1]\d|\d)] *)
Definition re_H : matcher (list ascii) :=
  alt (two (is_char "2") (in_range "0" "3"))
 (alt (two (in_range "0" "1") is_digit)
      (sat is_digit)).

(** [(?P<M>[0-5]\d|\d)] *)
Definition re_M : matcher (list ascii) :=
  alt (two (in_range "0" "5") is_digit) (sat is_digit).

(** [int] of a matched group: digits, after a blank for [" [1-9]"]. *)
Definition int_of_group (g : list ascii) : Z := digits_to_Z (lstrip g).

Record groups : Type := mk_groups { gY : Z; gm : Z; gd : Z; gH : Z; gM : Z }.

(** The expression for ["%Y%m%d %H%M"]: the blank of the format becomes [\s+]. *)
Definition format_regex : matcher groups := fun s =>
  '(Y, s1) ← re_Y s;
  '(m, s2) ← re_m s1;
  '(d, s3) ← re_d s2;
  '(_, s4) ← spaces1 s3;
  '(H, s5) ← re_H s4;
  '(M, s6) ← re_M s5;
  [(mk_groups (int_of_group Y) (int_of_group m) (int_of_group d)
              (int_of_group H) (int_of_group M), s6)].

(** [datetime_date(year, month, day)] and [datetime(...)] check the
    calendar: year 0 and a day past the end of the month are refused. *)
Definition make_datetime (g : groups) : result datetime :=
  if (1 <=? gY g) && (gd g <=? days_in_month (gY g) (gm g))
  then Ok (mk_datetime (gY g) (gm g) (gd g) (gH g) (gM g) 0 0 None)
  else Raise ValueError.

Definition strptime (s : string) : result datetime :=
  match format_regex (chars s) with
  | [] => Raise ValueError                     (* does not match format *)
  | (g, []) :: _ => make_datetime g
  | (_, _ :: _) :: _ => Raise ValueError       (* unconverted data remains *)
  end.

(** ** Python values *)

Inductive pyval : Type :=
| PyNone
| PyBool (b : bool)
| PyInt (z : Z)
| PyFloat (f : pyfloat)
| PyStr (s : string)
| PyDatetime (dt : datetime)
| PyList (l : list pyval)
| PyDict (m : gmap string pyval).

#[global] Instance result_fmap : FMap result := fun A B f m =>
  match m with
  | Ok a => Ok (f a)
  | Raise e => Raise e
  end.

(** [v is None] *)
Definition is_None (v : pyval) : bool :=
  match v with
  | PyNone => true
  | _ => false
  end.

(** [float(v)]: [None] and containers are a [TypeError], an [int] too
    large for a double an [OverflowError], a [str] is parsed. *)
Definition py_float (v : pyval) : result pyfloat :=
  match v with
  | PyFloat f => Ok f
  | PyInt z =>
      match float_of_Z z with
      | S754_infinity _ => Raise OverflowError
      | f => Ok f
      end
  | PyBool b => Ok (float_of_Z (if b then 1 else 0))
  | PyStr s => float_of_str s
  | PyNone | PyDatetime _ | PyList _ | PyDict _ => Raise TypeError
  end.

(** [o.get(k, dflt)]: only a [dict] has the method. *)
Definition py_get (o : pyval) (k : string) (dflt : pyval) : result pyval :=
  match o with
  | PyDict m => Ok (default dflt (m !! k))
  | _ => Raise AttributeError
  end.

(** ** The functions of the script *)

Definition parse_USAF (data : string) : string := slice 4 10 data.

Definition parse_WBAN (data : string) : string := slice 10 15 data.

Definition parse_time (data : string) : result pyval :=
  let raw_date_time := slice 15 23 data +:+ " " +:+ slice 23 27 data in
  try_except
    (date_time ← strptime raw_date_time;
     Ok (PyDatetime (replace_tzinfo date_time UTC)))
    (Ok PyNone).

Definition parse_temp (data : string) : result pyval :=
  try_except
    (x ← float_of_str (slice 87 92 data);
     Ok (PyFloat (div10 x)))
    (Ok PyNone).

(** The key under which the station of a line is looked up. *)
Definition station_key (data : string) : string :=
  parse_USAF data +:+ "|" +:+ parse_WBAN data.

(** The global [STATION_LOCATIONS] is an argument. *)
Definition get_station_location (STATION_LOCATIONS : pyval) (data : string)
  : result pyval :=
  let USAF := parse_USAF data in
  let WBAN := parse_WBAN data in
  py_get STATION_LOCATIONS (USAF +:+ "|" +:+ WBAN) PyNone.

Definition record (measurement_time lat lon temp : pyval) : gmap string pyval :=
  <["measurement_time" := measurement_time]>
    (<["lat" := lat]> (<["lon" := lon]> (<["temp" := temp]> ∅))).

Definition map_station_id_to_location (STATION_LOCATIONS : pyval) (data : string)
  : result pyval :=
  location ← get_station_location STATION_LOCATIONS data;
  lat ← py_get location "lat" PyNone ≫= py_float;
  lon ← py_get location "lon" PyNone ≫= py_float;
  measurement_time ← parse_time data;
  temp ← parse_temp data;
  Ok (PyDict (record measurement_time (PyFloat lat) (PyFloat lon) temp)).

(** [filter_required] works on the object bound to [data]: a computation
    returns its result together with that object as it leaves it. *)
Definition on_data (A : Type) : Type := pyval → result A * pyval.

(** [data.get(k, None) is None] *)
Definition get_is_None (k : string) : on_data bool := fun data =>
  (is_None <$> py_get data k PyNone, data).

(** [a or b]: [b] runs only when [a] is false. *)
Definition por (a b : on_data bool) : on_data bool := fun data =>
  match a data with
  | (Ok false, data') => b data'
  | r => r
  end.

Definition filter_required : on_data bool := fun data =>
  match por (get_is_None "lat")
       (por (get_is_None "lon")
       (por (get_is_None "measurement_time")
            (get_is_None "temp"))) data with
  | (Ok true, data') => (Ok false, data')
  | (Ok false, data') => (Ok true, data')
  | (Raise e, data') => (Raise e, data')
  end.

(** [rdd.map(map_station_id_to_location).filter(filter_required)] on one
    line: the record when it is kept, [None] when it is dropped. *)
Definition process_line (STATION_LOCATIONS : pyval) (data : string)
  : result (option pyval) :=
  r ← map_station_id_to_location STATION_LOCATIONS data;
  keep ← fst (filter_required r);
  Ok (if keep : bool then Some r else None).

Fixpoint pipeline (STATION_LOCATIONS : pyval) (raw_data : list string)
  : result (list pyval) :=
  match raw_data with
  | [] => Ok []
  | data :: rest =>
      o ← process_line STATION_LOCATIONS data;
      rs ← pipeline STATION_LOCATIONS rest;
      Ok (match o with Some r => r :: rs | None => rs end)
  end.

(** [f.readline()]: the text up to and with the first newline. *)
Fixpoint readline (content : string) : string :=
  match content with
  | EmptyString => EmptyString
  | String c rest =>
      if Ascii.eqb c "010" then String c EmptyString
      else String c (readline rest)
  end.

Section Main.
(** [open(filename)] followed by reading: the text of the file, or the
    error of a file that is absent or cannot be read. *)
Variable open_read : string → result string.
(** [json.loads]: the decoded value, or the error of a malformed text. *)
Variable json_loads : string → result pyval.

Definition get_station_locations_from_file (filename : string) : result pyval :=
  raw_json ← readline <$> open_read filename;
  json_loads raw_json.

(** The script: the directory is loaded, then the lines are mapped and
    filtered.  (The [groupBy] that follows, lines 131-133, closes a
    bracket it never opened and names no aggregate; the windows it asks
    for are treated on their own below.) *)
Definition main (raw_data : list string) : result (list pyval) :=
  STATION_LOCATIONS ← get_station_locations_from_file "stations_latlon.json";
  pipeline STATION_LOCATIONS raw_data.
End Main.

(** ** Windows *)

(** Modelled from the spec: the function [window] of [pyspark.sql.functions],
    called at lines 131-133 with [windowDuration="60 minutes"] and
    [startTime="30 minutes"], is not part of the sources.  Window starts
    lie at [offset + k * duration] from the epoch; a timestamp belongs to
    the window that starts at the last of them not after it.  Instants
    and durations are whole microseconds. *)
Definition window_start (t duration offset : Z) : Z :=
  offset + duration * ((t - offset) / duration).

(** Modelled from the spec: [assignWindow(timestamp, windowDuration,
    phaseOffset)], the window [[start, start + duration)] of a timestamp,
    as its two ends. *)
Definition assignWindow (t duration offset : Z) : Z * Z :=
  (window_start t duration offset, window_start t duration offset + duration).

Definition minutes (n : Z) : Z := n * 60 * 1000000.

Definition windowDuration : Z := minutes 60.
Definition startTime : Z := minutes 30.

(** An instant of day [n] after the epoch, at [h]:[m] UTC. *)
Definition at_time (n h m : Z) : Z := minutes (n * 1440 + h * 60 + m).

(** ** What the functions return *)

(** What [parse_time] and [parse_temp] return. *)
Definition decoded_time (data : string) : pyval :=
  match strptime (slice 15 23 data +:+ " " +:+ slice 23 27 data) with
  | Ok date_time => PyDatetime (replace_tzinfo date_time UTC)
  | Raise _ => PyNone
  end.

Definition decoded_temp (data : string) : pyval :=
  match float_of_str (slice 87 92 data) with
  | Ok x => PyFloat (div10 x)
  | Raise _ => PyNone
  end.

(** The value [.get(k, None)] reads is [None]: the key is missing, or
    bound to [None]. *)
Definition absent (m : gmap string pyval) (k : string) : Prop :=
  m !! k = None ∨ m !! k = Some PyNone.

Definition none_at (m : gmap string pyval) (k : string) : bool :=
  is_None (default PyNone (m !! k)).

Definition complete (m : gmap string pyval) : bool :=
  negb (none_at m "lat" || none_at m "lon"
        || none_at m "measurement_time" || none_at m "temp").

(** A JSON number. *)
Definition numeric (v : pyval) : bool :=
  match v with
  | PyInt _ | PyFloat _ => true
  | _ => false
  end.

(** A text without any decimal digit. *)
Definition no_digits (l : list ascii) : bool := forallb (λ c, negb (is_digit c)) l.

Definition no_digit (s : string) : bool := no_digits (chars s).

(** A spelling of infinity or of not-a-number: [inf], [infinity] or
    [nan] in any case, after an optional sign, between blanks. *)
Definition inf_nan_word (l : list ascii) : bool :=
  let w := map Py_TOLOWER (snd (parse_sign l)) in
  bool_decide (w = chars "inf") || bool_decide (w = chars "infinity")
  || bool_decide (w = chars "nan").

Definition inf_nan_literal (s : string) : bool :=
  inf_nan_word (strip (map to_ascii (chars s))).

(** A character that the expression of the format can read. *)
Definition digit_or_space (c : ascii) : bool := is_digit c || Py_UNICODE_ISSPACE c.

(** Every match of [p] reads digits and blanks only. *)
Definition reads_digits_and_spaces {A : Type} (p : matcher A) : Prop :=
  ∀ s a r, (a, r) ∈ p s →
           ∃ pre, s = pre ++ r ∧ Forall (λ c, digit_or_space c = true) pre.

(** An instant of the calendar, to the minute, in UTC. *)
Definition valid_datetime (dt : datetime) : Prop :=
  1 ≤ year dt ≤ 9999 ∧ 1 ≤ month dt ≤ 12
  ∧ 1 ≤ day dt ≤ days_in_month (year dt) (month dt)
  ∧ 0 ≤ hour dt ≤ 23 ∧ 0 ≤ minute dt ≤ 59
  ∧ second dt = 0 ∧ microsecond dt = 0 ∧ tz dt = Some UTC.

(** The fields of a twelve-digit date and time name an instant. *)
Definition valid_fields (Y Mo D H Mi : Z) : bool :=
  (1 <=? Y) && (1 <=? Mo) && (Mo <=? 12) && (1 <=? D)
  && (D <=? days_in_month Y Mo) && (H <=? 23) && (Mi <=? 59).


(** The timestamp and the temperature of a line both decode. *)
Definition well_decoded (data : string) : bool :=
  negb (is_None (decoded_time data) || is_None (decoded_temp data)).

(** ** Example data *)

(** A record of the hourly NOAA format: station 725300/94846, 1 January
    2016 at 12:00, air temperature [+0150]. *)
Definition example_line : string :=
  "0059725300948462016010112004+41995-087934FM-15+0205KORD V0203201N00261220001CN0160931N5+01501-00391102261".

Definition example_location : gmap string pyval :=
  <["lat" := PyFloat (float_of_Z 42)]> (<["lon" := PyInt (-88)]> ∅).

Definition example_directory : pyval :=
  PyDict (<["725300|94846" := PyDict example_location]> ∅).

(** [15.0] *)
Definition f15 : pyfloat := S754_finite false 8444249301319680 (-49).

Definition noon_2016_01_01 : datetime := mk_datetime 2016 1 1 12 0 0 0 (Some UTC).

(** A location that lacks [lat]. *)
Definition location_without_lat : gmap string pyval :=
  <["lon" := PyFloat (float_of_Z (-88))]> ∅.

(** The first 87 characters of the example. *)
Definition filler : string :=
  "0059725300948462016010112004+41995-087934FM-15+0205KORD V0203201N00261220001CN0160931N5".

(** A line that ends with the text [t] at character 87. *)
Definition line_with_temp (t : string) : string := filler +:+ t.

(** A line that ends with a date at character 15 and a time after it. *)
Definition line_with_time (date time : string) : string :=
  "005972530094846" +:+ date +:+ time.

(** ** Results and slices *)

Lemma substring_short (n m : nat) (s : string) :
  (String.length s ≤ n)%nat → substring n m s = EmptyString.
Proof.
  revert n; induction s as [|c s IH]; intros [|n] Hn; simpl in *;
    try (destruct m; reflexivity); try lia.
  apply IH; lia.
Qed.

Lemma length_substring (n m : nat) (s : string) :
  String.length (substring n m s) = Nat.min m (String.length s - n).
Proof.
  revert n m; induction s as [|c s IH]; intros [|n] [|m]; simpl; try reflexivity.
  - rewrite IH. f_equal. lia.
  - apply IH.
  - apply IH.
Qed.

Lemma length_slice (a b : nat) (s : string) :
  String.length (slice a b s) = (Nat.min b (String.length s) - a)%nat.
Proof. unfold slice. rewrite length_substring. lia. Qed.

Lemma slice_short (a b : nat) (s : string) :
  (String.length s ≤ a)%nat → slice a b s = EmptyString.
Proof. apply substring_short. Qed.

Lemma chars_app (s t : string) : chars (s +:+ t) = chars s ++ chars t.
Proof. induction s as [|c s IH]; simpl; [reflexivity | by rewrite IH]. Qed.

(** ** The decoder *)

Lemma parse_time_total (data : string) : parse_time data = Ok (decoded_time data).
Proof.
  unfold parse_time, decoded_time.
  destruct (strptime _); reflexivity.
Qed.

Lemma parse_temp_total (data : string) : parse_temp data = Ok (decoded_temp data).
Proof.
  unfold parse_temp, decoded_temp.
  destruct (float_of_str _); reflexivity.
Qed.

(** ** The completeness predicate *)

Lemma none_at_absent (m : gmap string pyval) (k : string) :
  none_at m k = true ↔ absent m k.
Proof.
  unfold none_at, absent. destruct (m !! k) as [v|]; simpl.
  - destruct v; simpl;
      (split; [intros H; first [by right | discriminate]
              | intros [H|H]; first [reflexivity | congruence]]).
  - split; [by left | done].
Qed.

Lemma filter_required_dict (m : gmap string pyval) :
  filter_required (PyDict m) = (Ok (complete m), PyDict m).
Proof.
  unfold filter_required, por, get_is_None, complete, none_at; simpl.
  destruct (is_None (default PyNone (m !! "lat"))); [reflexivity|].
  destruct (is_None (default PyNone (m !! "lon"))); [reflexivity|].
  destruct (is_None (default PyNone (m !! "measurement_time"))); [reflexivity|].
  destruct (is_None (default PyNone (m !! "temp"))); reflexivity.
Qed.

Lemma complete_record (mt lat lon temp : pyval) :
  complete (record mt lat lon temp)
  = negb (is_None lat || is_None lon || is_None mt || is_None temp).
Proof. reflexivity. Qed.

(** ** Enrichment *)

Lemma map_station_resolved (dir loc : gmap string pyval) (latv lonv : pyval)
    (la lo : pyfloat) (data : string) :
  dir !! station_key data = Some (PyDict loc) →
  loc !! "lat" = Some latv → py_float latv = Ok la →
  loc !! "lon" = Some lonv → py_float lonv = Ok lo →
  map_station_id_to_location (PyDict dir) data
  = Ok (PyDict (record (decoded_time data) (PyFloat la) (PyFloat lo)
                       (decoded_temp data))).
Proof.
  intros Hk Hlat Hla Hlon Hlo.
  unfold map_station_id_to_location, get_station_location, py_get.
  fold (station_key data). rewrite Hk. simpl.
  rewrite Hlat. simpl. rewrite Hla. simpl.
  rewrite Hlon. simpl. rewrite Hlo. simpl.
  rewrite parse_time_total, parse_temp_total. reflexivity.
Qed.

Lemma process_line_resolved (dir loc : gmap string pyval) (latv lonv : pyval)
    (la lo : pyfloat) (data : string) :
  dir !! station_key data = Some (PyDict loc) →
  loc !! "lat" = Some latv → py_float latv = Ok la →
  loc !! "lon" = Some lonv → py_float lonv = Ok lo →
  let r := record (decoded_time data) (PyFloat la) (PyFloat lo) (decoded_temp data) in
  process_line (PyDict dir) data
  = Ok (if negb (is_None (decoded_time data) || is_None (decoded_temp data))
        then Some (PyDict r) else None).
Proof.
  intros Hk Hlat Hla Hlon Hlo r.
  unfold process_line.
  rewrite (map_station_resolved dir loc latv lonv la lo) by assumption.
  simpl. rewrite filter_required_dict. simpl.
  rewrite complete_record. reflexivity.
Qed.

(** ** Fields written as the format prescribes *)

Lemma digit_cases (c : ascii) :
  is_digit c = true →
  c ∈ ["0"; "1"; "2"; "3"; "4"; "5"; "6"; "7"; "8"; "9"]%char.
Proof.
  destruct c as [[] [] [] [] [] [] [] []]; intros H;
    try discriminate H; set_solver.
Qed.

Ltac digit_case c H :=
  apply digit_cases in H;
  repeat (apply elem_of_cons in H as [-> | H]); [.. | by apply elem_of_nil in H].

Lemma digit_plain (c : ascii) :
  is_digit c = true →
  to_ascii c = c ∧ Ascii.eqb c "_" = false ∧ Py_ISSPACE c = false
  ∧ Py_UNICODE_ISSPACE c = false ∧ 0 ≤ digit_val c ≤ 9.
Proof. intros H. digit_case c H; vm_compute; repeat split; congruence. Qed.

Lemma re_Y_digits (y1 y2 y3 y4 : ascii) (r : list ascii) :
  is_digit y1 = true → is_digit y2 = true → is_digit y3 = true → is_digit y4 = true →
  re_Y (y1 :: y2 :: y3 :: y4 :: r) = [([y1; y2; y3; y4], r)].
Proof.
  intros H1 H2 H3 H4. unfold re_Y, two, seq, sat. simpl.
  rewrite H1. simpl. rewrite H2. simpl. rewrite H3. simpl. rewrite H4. reflexivity.
Qed.

Ltac absurd_range H :=
  exfalso; revert H; vm_compute;
  let Ha := fresh in let Hb := fresh in
  intros [Ha Hb]; first [by apply Ha | by apply Hb].

Lemma re_m_digits (m1 m2 : ascii) (r : list ascii) :
  is_digit m1 = true → is_digit m2 = true →
  1 ≤ digits_to_Z [m1; m2] ≤ 12 →
  ∃ tl, re_m (m1 :: m2 :: r) = ([m1; m2], r) :: tl.
Proof.
  intros H1 H2 Hm. digit_case m1 H1; digit_case m2 H2;
    first [ absurd_range Hm | eexists; reflexivity ].
Qed.

Lemma re_d_digits (d1 d2 : ascii) (r : list ascii) :
  is_digit d1 = true → is_digit d2 = true →
  1 ≤ digits_to_Z [d1; d2] ≤ 31 →
  ∃ tl, re_d (d1 :: d2 :: r) = ([d1; d2], r) :: tl.
Proof.
  intros H1 H2 Hm. digit_case d1 H1; digit_case d2 H2;
    first [ absurd_range Hm | eexists; reflexivity ].
Qed.

Lemma re_H_digits (h1 h2 : ascii) (r : list ascii) :
  is_digit h1 = true → is_digit h2 = true →
  0 ≤ digits_to_Z [h1; h2] ≤ 23 →
  ∃ tl, re_H (h1 :: h2 :: r) = ([h1; h2], r) :: tl.
Proof.
  intros H1 H2 Hm. digit_case h1 H1; digit_case h2 H2;
    first [ absurd_range Hm | eexists; reflexivity ].
Qed.

Lemma re_M_digits (n1 n2 : ascii) (r : list ascii) :
  is_digit n1 = true → is_digit n2 = true →
  0 ≤ digits_to_Z [n1; n2] ≤ 59 →
  ∃ tl, re_M (n1 :: n2 :: r) = ([n1; n2], r) :: tl.
Proof.
  intros H1 H2 Hm. digit_case n1 H1; digit_case n2 H2;
    first [ absurd_range Hm | eexists; reflexivity ].
Qed.

Lemma int_of_group_digits (c : ascii) (l : list ascii) :
  is_digit c = true → int_of_group (c :: l) = digits_to_Z (c :: l).
Proof.
  intros H. unfold int_of_group. simpl.
  destruct (digit_plain c H) as (_ & _ & -> & _). reflexivity.
Qed.

Lemma spaces1_blank (c : ascii) (r : list ascii) :
  is_digit c = true → spaces1 (" "%char :: c :: r) = [([" "%char], c :: r)].
Proof.
  intros H. simpl.
  destruct (digit_plain c H) as (_ & _ & _ & -> & _). reflexivity.
Qed.

Lemma bind_head {A B : Type} (f : A → list B) (x : A) (tl : list A) (y : B) (tl' : list B) :
  f x = y :: tl' → (x :: tl) ≫= f = y :: (tl' ++ (tl ≫= f)).
Proof. intros H. simpl. rewrite H. reflexivity. Qed.

Lemma digits_to_Z_two (a b : ascii) :
  is_digit a = true → is_digit b = true → 0 ≤ digits_to_Z [a; b].
Proof.
  intros Ha Hb. unfold digits_to_Z; simpl.
  destruct (digit_plain a Ha) as (_ & _ & _ & _ & ?).
  destruct (digit_plain b Hb) as (_ & _ & _ & _ & ?). lia.
Qed.

(** On twelve digits within the ranges of the directives, the first
    match of the expression takes the digits two by two and reads to
    the end. *)
Lemma format_regex_digits (y1 y2 y3 y4 m1 m2 d1 d2 h1 h2 n1 n2 : ascii) :
  Forall (λ c, is_digit c = true) [y1; y2; y3; y4; m1; m2; d1; d2; h1; h2; n1; n2] →
  1 ≤ digits_to_Z [m1; m2] ≤ 12 → 1 ≤ digits_to_Z [d1; d2] ≤ 31 →
  digits_to_Z [h1; h2] ≤ 23 → digits_to_Z [n1; n2] ≤ 59 →
  ∃ tl, format_regex ([y1; y2; y3; y4; m1; m2; d1; d2] ++ " "%char :: [h1; h2; n1; n2])
        = (mk_groups (digits_to_Z [y1; y2; y3; y4]) (digits_to_Z [m1; m2])
                     (digits_to_Z [d1; d2]) (digits_to_Z [h1; h2])
                     (digits_to_Z [n1; n2]), []) :: tl.
Proof.
  intros Hds HMo HD HH HMi.
  apply Forall_cons in Hds as [Hy1 Hds]. apply Forall_cons in Hds as [Hy2 Hds].
  apply Forall_cons in Hds as [Hy3 Hds]. apply Forall_cons in Hds as [Hy4 Hds].
  apply Forall_cons in Hds as [Hm1 Hds]. apply Forall_cons in Hds as [Hm2 Hds].
  apply Forall_cons in Hds as [Hd1 Hds]. apply Forall_cons in Hds as [Hd2 Hds].
  apply Forall_cons in Hds as [Hh1 Hds]. apply Forall_cons in Hds as [Hh2 Hds].
  apply Forall_cons in Hds as [Hn1 Hds]. apply Forall_cons in Hds as [Hn2 _].
  pose proof (digits_to_Z_two h1 h2 Hh1 Hh2) as HH0.
  pose proof (digits_to_Z_two n1 n2 Hn1 Hn2) as HMi0.
  destruct (re_m_digits m1 m2 (d1 :: d2 :: " "%char :: [h1; h2; n1; n2]))
    as [tm Hm]; [assumption..|].
  destruct (re_d_digits d1 d2 (" "%char :: [h1; h2; n1; n2]))
    as [td Hd]; [assumption..|].
  destruct (re_H_digits h1 h2 [n1; n2]) as [th Hh]; [assumption| assumption | lia |].
  destruct (re_M_digits n1 n2 []) as [tn Hn]; [assumption | assumption | lia |].
  eexists. unfold format_regex. cbn [app].
  rewrite re_Y_digits by assumption.
  erewrite bind_head; [reflexivity|].
  rewrite Hm. erewrite bind_head; [reflexivity|].
  rewrite Hd. erewrite bind_head; [reflexivity|].
  rewrite spaces1_blank by assumption. erewrite bind_head; [reflexivity|].
  rewrite Hh. erewrite bind_head; [reflexivity|].
  rewrite Hn. erewrite bind_head; [reflexivity|].
  rewrite !int_of_group_digits by assumption. reflexivity.
Qed.

(** Twelve digits that spell a date of the calendar and a time of day
    are read as they stand. *)
Lemma strptime_digits (y1 y2 y3 y4 m1 m2 d1 d2 h1 h2 n1 n2 : ascii) :
  Forall (λ c, is_digit c = true) [y1; y2; y3; y4; m1; m2; d1; d2; h1; h2; n1; n2] →
  let Y := digits_to_Z [y1; y2; y3; y4] in
  let Mo := digits_to_Z [m1; m2] in
  let D := digits_to_Z [d1; d2] in
  let H := digits_to_Z [h1; h2] in
  let Mi := digits_to_Z [n1; n2] in
  1 ≤ Y → 1 ≤ Mo ≤ 12 → 1 ≤ D ≤ days_in_month Y Mo → H ≤ 23 → Mi ≤ 59 →
  strptime (string_of_list_ascii [y1; y2; y3; y4; m1; m2; d1; d2] +:+ " "
            +:+ string_of_list_ascii [h1; h2; n1; n2])
  = Ok (mk_datetime Y Mo D H Mi 0 0 None).
Proof.
  intros Hds Y Mo D H Mi HY HMo HD HH HMi.
  assert (HD31 : 1 ≤ D ≤ 31).
  { split; [lia|]. etrans; [apply HD|]. unfold days_in_month.
    repeat match goal with |- context [if ?b then _ else _] => destruct b end; lia. }
  destruct (format_regex_digits y1 y2 y3 y4 m1 m2 d1 d2 h1 h2 n1 n2)
    as [tl Hre]; [assumption..|].
  unfold strptime. rewrite !chars_app. unfold chars.
  rewrite !list_ascii_of_string_of_list_ascii.
  change (list_ascii_of_string " ") with [" "%char]. cbn [app] in Hre |- *.
  rewrite Hre. unfold make_datetime. cbn [gY gm gd gH gM].
  fold Y Mo D H Mi.
  replace (1 <=? Y) with true by (symmetry; apply Z.leb_le; lia).
  replace (D <=? days_in_month Y Mo) with true by (symmetry; apply Z.leb_le; lia).
  reflexivity.
Qed.

Lemma span_digits_all (ds : list ascii) :
  Forall (λ c, is_digit c = true) ds → span_digits ds = (ds, []).
Proof.
  induction 1 as [|c ds Hc _ IH]; simpl; [reflexivity|].
  rewrite Hc, IH. reflexivity.
Qed.

Lemma remove_underscores_digits (ds : list ascii) :
  Forall (λ c, is_digit c = true) ds →
  ∀ prev, Ascii.eqb prev "_" = false → remove_underscores prev ds = Some ds.
Proof.
  induction 1 as [|c ds Hc _ IH]; intros prev Hp; simpl.
  - rewrite Hp. reflexivity.
  - destruct (digit_plain c Hc) as (_ & Hu & _).
    rewrite Hu, Hp. simpl. rewrite IH by assumption. reflexivity.
Qed.

Lemma map_to_ascii_digits (ds : list ascii) :
  Forall (λ c, is_digit c = true) ds → map to_ascii ds = ds.
Proof.
  induction 1 as [|c ds Hc _ IH]; simpl; [reflexivity|].
  destruct (digit_plain c Hc) as (-> & _). by rewrite IH.
Qed.

Lemma lstrip_head (l : list ascii) :
  match l with c :: _ => Py_ISSPACE c = false | [] => True end → lstrip l = l.
Proof. destruct l as [|c l]; simpl; [done|]. by intros ->. Qed.

Lemma strip_signed (sgn : ascii) (ds : list ascii) :
  Py_ISSPACE sgn = false → Forall (λ c, is_digit c = true) ds → ds ≠ [] →
  strip (sgn :: ds) = sgn :: ds.
Proof.
  intros Hs Hds Hne. unfold strip.
  rewrite (lstrip_head (sgn :: ds)) by exact Hs.
  rewrite lstrip_head; [apply rev_involutive|].
  destruct (exists_last Hne) as (ds' & d & ->).
  change (sgn :: ds' ++ [d]) with ((sgn :: ds') ++ [d]).
  rewrite rev_unit.
  apply Forall_app in Hds as [_ Hd]. apply Forall_cons in Hd as [Hd _].
  by destruct (digit_plain d Hd) as (_ & _ & -> & _).
Qed.

(** A sign and digits are read as the signed whole number. *)
Lemma float_of_str_signed (neg : bool) (ds : list ascii) :
  Forall (λ c, is_digit c = true) ds → ds ≠ [] →
  float_of_str (string_of_list_ascii ((if neg then "-" else "+")%char :: ds))
  = Ok (decimal_to_float neg (digits_to_Z ds) 0).
Proof.
  intros Hds Hne. unfold float_of_str, chars.
  rewrite list_ascii_of_string_of_list_ascii.
  set (sgn := (if neg then "-" else "+")%char).
  assert (Hsgn : to_ascii sgn = sgn ∧ Ascii.eqb sgn "_" = false
                 ∧ Py_ISSPACE sgn = false ∧ parse_sign (sgn :: ds) = (neg, ds)).
  { unfold sgn. destruct neg; repeat split; reflexivity. }
  destruct Hsgn as (Ha & Hu & Hsp & Hps).
  cbn [map]. rewrite Ha, map_to_ascii_digits by assumption.
  cbn [remove_underscores]. rewrite Hu.
  change (Ascii.eqb "000" "_") with false. cbn [andb].
  rewrite remove_underscores_digits by assumption. cbn [fmap option_fmap option_map].
  unfold float_from_string_inner, PyOS_string_to_double.
  rewrite strip_signed by assumption.
  unfold dg_strtod. rewrite Hps, span_digits_all by assumption.
  rewrite app_nil_r. destruct ds as [|d ds]; [done|].
  cbn [parse_exponent length Z.of_nat]. reflexivity.
Qed.

(** X14: a line whose date, time and temperature fields are written as
    the format prescribes, and whose station resolves, is kept with the
    numbers it spells. *)
Lemma well_formed_line_kept (dir loc : gmap string pyval) (latv lonv : pyval)
    (la lo : pyfloat) (data : string)
    (y1 y2 y3 y4 m1 m2 d1 d2 h1 h2 n1 n2 : ascii) (neg : bool) (ts : list ascii) :
  dir !! station_key data = Some (PyDict loc) →
  loc !! "lat" = Some latv → py_float latv = Ok la →
  loc !! "lon" = Some lonv → py_float lonv = Ok lo →
  slice 15 23 data = string_of_list_ascii [y1; y2; y3; y4; m1; m2; d1; d2] →
  slice 23 27 data = string_of_list_ascii [h1; h2; n1; n2] →
  slice 87 92 data = string_of_list_ascii ((if neg then "-" else "+")%char :: ts) →
  Forall (λ c, is_digit c = true) [y1; y2; y3; y4; m1; m2; d1; d2; h1; h2; n1; n2] →
  Forall (λ c, is_digit c = true) ts → ts ≠ [] →
  let Y := digits_to_Z [y1; y2; y3; y4] in
  let Mo := digits_to_Z [m1; m2] in
  let D := digits_to_Z [d1; d2] in
  let H := digits_to_Z [h1; h2] in
  let Mi := digits_to_Z [n1; n2] in
  1 ≤ Y → 1 ≤ Mo ≤ 12 → 1 ≤ D ≤ days_in_month Y Mo → H ≤ 23 → Mi ≤ 59 →
  process_line (PyDict dir) data
  = Ok (Some (PyDict (record (PyDatetime (mk_datetime Y Mo D H Mi 0 0 (Some UTC)))
                             (PyFloat la) (PyFloat lo)
                             (PyFloat (div10 (decimal_to_float neg (digits_to_Z ts) 0)))))).
Proof.
  intros Hk Hlat Hla Hlon Hlo Hdate Htime Htemp Hds Hts Hne Y Mo D H Mi HY HMo HD HH HMi.
  rewrite (process_line_resolved dir loc latv lonv la lo) by assumption.
  unfold decoded_time, decoded_temp.
  rewrite Hdate, Htime, Htemp.
  rewrite strptime_digits by assumption.
  rewrite float_of_str_signed by assumption.
  reflexivity.
Qed.

(** C1: a line of at least 92 characters whose station key resolves to a
    location with numeric [lat] and [lon] (numbers that [float] converts
    to [la] and [lo]) and whose date/time text and temperature text
    parse (to [dt] and [x]) goes through [map_station_id_to_location]
    and [filter_required] without an exception and is kept: the record
    holds [dt] in UTC, [la], [lo] and [x / 10].  When the line carries
    station 725300/94846, date 20160101, time 1200 and temperature
    [+0150], the timestamp is 2016-01-01 12:00:00 UTC and the
    temperature 15.0. *)
Theorem pipeline_valid_record (dir loc : gmap string pyval) (latv lonv : pyval)
    (la lo : pyfloat) (data : string) (dt : datetime) (x : pyfloat) :
  (92 ≤ String.length data)%nat →
  dir !! station_key data = Some (PyDict loc) →
  loc !! "lat" = Some latv → numeric latv = true → py_float latv = Ok la →
  loc !! "lon" = Some lonv → numeric lonv = true → py_float lonv = Ok lo →
  strptime (slice 15 23 data +:+ " " +:+ slice 23 27 data) = Ok dt →
  float_of_str (slice 87 92 data) = Ok x →
  let r := record (PyDatetime (replace_tzinfo dt UTC)) (PyFloat la) (PyFloat lo)
                  (PyFloat (div10 x)) in
  process_line (PyDict dir) data = Ok (Some (PyDict r))
  ∧ fst (filter_required (PyDict r)) = Ok true
  ∧ r !! "measurement_time" = Some (PyDatetime (replace_tzinfo dt UTC))
  ∧ r !! "lat" = Some (PyFloat la) ∧ r !! "lon" = Some (PyFloat lo)
  ∧ r !! "temp" = Some (PyFloat (div10 x))
  ∧ (slice 4 10 data = "725300" → slice 10 15 data = "94846" →
     slice 15 23 data = "20160101" → slice 23 27 data = "1200" →
     slice 87 92 data = "+0150" →
     station_key data = "725300|94846"
     ∧ replace_tzinfo dt UTC = noon_2016_01_01 ∧ div10 x = f15).
Proof.
  intros Hlen Hk Hlat _ Hla Hlon _ Hlo Hdt Hx r.
  assert (Ht : decoded_time data = PyDatetime (replace_tzinfo dt UTC))
    by (unfold decoded_time; rewrite Hdt; reflexivity).
  assert (Hp : decoded_temp data = PyFloat (div10 x))
    by (unfold decoded_temp; rewrite Hx; reflexivity).
  split.
  { rewrite (process_line_resolved dir loc latv lonv la lo) by assumption.
    rewrite Ht, Hp. reflexivity. }
  do 5 (split; [reflexivity|]).
  intros Husaf Hwban Hdate Htime Htemp. split; [|split].
  - unfold station_key, parse_USAF, parse_WBAN. rewrite Husaf, Hwban. reflexivity.
  - rewrite Hdate, Htime in Hdt. vm_compute in Hdt. injection Hdt as <-. reflexivity.
  - rewrite Htemp in Hx. vm_compute in Hx. injection Hx as <-. reflexivity.
Qed.

Lemma pipeline_valid_record_example :
  (92 ≤ String.length example_line)%nat
  ∧ station_key example_line = "725300|94846"
  ∧ process_line example_directory example_line
    = Ok (Some (PyDict (record (PyDatetime noon_2016_01_01)
                               (PyFloat (float_of_Z 42)) (PyFloat (float_of_Z (-88)))
                               (PyFloat f15)))).
Proof.
  split; [vm_compute; lia|]. split; [reflexivity|].
  apply (pipeline_valid_record
           (<["725300|94846" := PyDict example_location]> ∅) example_location
           (PyFloat (float_of_Z 42)) (PyInt (-88)) (float_of_Z 42) (float_of_Z (-88))
           example_line (mk_datetime 2016 1 1 12 0 0 0 None)
           (float_of_Z 150)); try reflexivity.
  vm_compute; lia.
Defined.

(** C2, in the code: when the station key is not in the directory,
    [get_station_location] returns [None] and [map_station_id_to_location]
    then calls [None.get]: the line raises [AttributeError], and with it
    every run over lines that begins with it; the record is not dropped. *)
Theorem unresolved_station_raises (dir : gmap string pyval) (data : string)
    (rest : list string) :
  dir !! station_key data = None →
  get_station_location (PyDict dir) data = Ok PyNone
  ∧ map_station_id_to_location (PyDict dir) data = Raise AttributeError
  ∧ process_line (PyDict dir) data = Raise AttributeError
  ∧ pipeline (PyDict dir) (data :: rest) = Raise AttributeError.
Proof.
  intros Hk.
  assert (Hg : get_station_location (PyDict dir) data = Ok PyNone).
  { unfold get_station_location, py_get. fold (station_key data).
    rewrite Hk. reflexivity. }
  assert (Hm : map_station_id_to_location (PyDict dir) data = Raise AttributeError).
  { unfold map_station_id_to_location. rewrite Hg. reflexivity. }
  assert (Hp : process_line (PyDict dir) data = Raise AttributeError).
  { unfold process_line. rewrite Hm. reflexivity. }
  repeat split; try assumption.
  simpl. rewrite Hp. reflexivity.
Qed.

Lemma unresolved_station_raises_example :
  (∅ : gmap string pyval) !! station_key example_line = None
  ∧ process_line (PyDict ∅) example_line = Raise AttributeError.
Proof.
  split; [reflexivity|].
  apply (unresolved_station_raises ∅ example_line []). reflexivity.
Defined.

(** C7, in the code: when the location of the station is a dict without
    [lat], or with a usable [lat] and without [lon], the default [None]
    of [.get] is handed to [float], which raises [TypeError]: no record
    with an absent coordinate reaches [filter_required]. *)
Theorem missing_coordinate_raises (dir loc : gmap string pyval) (data : string) :
  dir !! station_key data = Some (PyDict loc) →
  loc !! "lat" = None
  ∨ (∃ latv la, loc !! "lat" = Some latv ∧ py_float latv = Ok la
                ∧ loc !! "lon" = None) →
  map_station_id_to_location (PyDict dir) data = Raise TypeError
  ∧ process_line (PyDict dir) data = Raise TypeError.
Proof.
  intros Hk Hmiss.
  assert (Hm : map_station_id_to_location (PyDict dir) data = Raise TypeError).
  { unfold map_station_id_to_location, get_station_location, py_get.
    fold (station_key data). rewrite Hk. simpl.
    destruct Hmiss as [Hlat | (latv & la & Hlat & Hla & Hlon)].
    - rewrite Hlat. reflexivity.
    - rewrite Hlat. simpl. rewrite Hla. simpl. rewrite Hlon. reflexivity. }
  split; [exact Hm|]. unfold process_line. rewrite Hm. reflexivity.
Qed.

Lemma missing_coordinate_raises_example :
  process_line (PyDict (<["725300|94846" := PyDict location_without_lat]> ∅))
               example_line
  = Raise TypeError.
Proof.
  apply (missing_coordinate_raises
           (<["725300|94846" := PyDict location_without_lat]> ∅)
           location_without_lat example_line).
  - reflexivity.
  - left. reflexivity.
Defined.

(** C5: on every line [parse_time] and [parse_temp] return: the timestamp
    read from characters 15-23 and 23-27 by [strptime], in UTC, and the
    tenth of the number [float] reads from characters 87-92, or [None]
    when the reading raises, as with a day that is not in the calendar,
    an hour or minute out of range, text that is no number, or a field
    that is cut short. *)
Theorem decode_never_raises (data : string) :
  parse_time data
  = Ok (match strptime (slice 15 23 data +:+ " " +:+ slice 23 27 data) with
        | Ok date_time => PyDatetime (replace_tzinfo date_time UTC)
        | Raise _ => PyNone
        end)
  ∧ parse_temp data
    = Ok (match float_of_str (slice 87 92 data) with
          | Ok x => PyFloat (div10 x)
          | Raise _ => PyNone
          end)
  ∧ ¬ raises (parse_time data) ∧ ¬ raises (parse_temp data)
  ∧ parse_time (line_with_time "20160101" "1200") = Ok (PyDatetime noon_2016_01_01)
  ∧ parse_time (line_with_time "20160230" "1200") = Ok PyNone
  ∧ parse_time (line_with_time "20160101" "2400") = Ok PyNone
  ∧ parse_time (line_with_time "20160101" "1260") = Ok PyNone
  ∧ parse_time (line_with_time "2016JAN1" "1200") = Ok PyNone
  ∧ parse_time (line_with_time "20160101" "") = Ok PyNone
  ∧ parse_time (line_with_time "201601" "") = Ok PyNone
  ∧ parse_temp (line_with_temp "+0150") = Ok (PyFloat f15)
  ∧ parse_temp (line_with_temp "+01A0") = Ok PyNone
  ∧ parse_temp (line_with_temp "") = Ok PyNone.
Proof.
  pose proof (parse_time_total data) as Ht.
  pose proof (parse_temp_total data) as Hp.
  split; [exact Ht|]. split; [exact Hp|].
  split; [intros [e He]; congruence|].
  split; [intros [e He]; congruence|].
  repeat split; vm_compute; reflexivity.
Qed.

(** C6: on a record (a dict) [filter_required] returns [False] exactly
    when [lat], [lon], [measurement_time] or [temp] is absent, [True]
    otherwise, and leaves the record as it was. *)
Theorem filter_required_complete (m : gmap string pyval) :
  ∃ b : bool,
    filter_required (PyDict m) = (Ok b, PyDict m)
    ∧ (b = false ↔ absent m "lat" ∨ absent m "lon"
                    ∨ absent m "measurement_time" ∨ absent m "temp")
    ∧ (b = true ↔ ¬ (absent m "lat" ∨ absent m "lon"
                     ∨ absent m "measurement_time" ∨ absent m "temp")).
Proof.
  exists (complete m). split; [apply filter_required_dict|].
  unfold complete.
  rewrite <- !none_at_absent.
  destruct (none_at m "lat"), (none_at m "lon"),
           (none_at m "measurement_time"), (none_at m "temp"); simpl;
    intuition congruence.
Qed.

Lemma none_at_insert_None (m : gmap string pyval) (k k' : string) :
  none_at (<[k := PyNone]> m) k' = none_at (delete k m) k'.
Proof.
  unfold none_at. destruct (decide (k = k')) as [->|Hne].
  - rewrite lookup_insert_eq, lookup_delete_eq. reflexivity.
  - rewrite lookup_insert_ne, lookup_delete_ne by assumption. reflexivity.
Qed.

(** C10: [filter_required] returns a boolean on every dict, and a key
    bound to [None] counts like a key that is missing. *)
Theorem filter_required_total (m : gmap string pyval) (k : string) :
  (∃ b : bool, fst (filter_required (PyDict m)) = Ok b)
  ∧ fst (filter_required (PyDict (<[k := PyNone]> m)))
    = fst (filter_required (PyDict (delete k m))).
Proof.
  split.
  - exists (complete m). rewrite filter_required_dict. reflexivity.
  - rewrite !filter_required_dict. simpl. unfold complete.
    rewrite !none_at_insert_None. reflexivity.
Qed.

(** ** Loading the directory *)

Lemma readline_first_line (l rest : string) :
  ¬ In "010"%char (chars l) →
  readline (l +:+ String "010" rest) = l +:+ String "010" EmptyString.
Proof.
  induction l as [|c l IH]; simpl; intros Hl; [reflexivity|].
  destruct (Ascii.eqb c "010") eqn:Hc.
  - apply Ascii.eqb_eq in Hc. exfalso. apply Hl. by left.
  - rewrite IH; [reflexivity|]. intros Hin. apply Hl. by right.
Qed.

Lemma readline_no_newline (s : string) :
  ¬ In "010"%char (chars s) → readline s = s.
Proof.
  induction s as [|c s IH]; simpl; intros Hs; [reflexivity|].
  destruct (Ascii.eqb c "010") eqn:Hc.
  - apply Ascii.eqb_eq in Hc. exfalso. apply Hs. by left.
  - rewrite IH; [reflexivity|]. intros Hin. apply Hs. by right.
Qed.



Section Load.
Variable open_read : string → result string.
Variable json_loads : string → result pyval.

End Load.


(** ** The temperature field *)

(** C9: [parse_temp] hands the slice [data[87:92]], whatever its length,
    to [float] and returns a tenth of the value, [None] only when [float]
    raises: a line of 90 characters that ends in [150], and slices with
    a point, an exponent, blanks or underscores, give a temperature;
    five characters that are no float literal give [None]. *)
Theorem parse_temp_reads_any_float (data : string) :
  parse_temp data
  = Ok (match float_of_str (slice 87 92 data) with
        | Ok x => PyFloat (div10 x)
        | Raise _ => PyNone
        end)
  ∧ String.length (slice 87 92 data) = (Nat.min 92 (String.length data) - 87)%nat
  ∧ String.length (line_with_temp "150") = 90%nat
  ∧ parse_temp (line_with_temp "150") = Ok (PyFloat f15)
  ∧ parse_temp (line_with_temp "1.5e2") = Ok (PyFloat f15)
  ∧ parse_temp (line_with_temp " 150 ") = Ok (PyFloat f15)
  ∧ parse_temp (line_with_temp "1_5_0") = Ok (PyFloat f15)
  ∧ parse_temp (line_with_temp "-2e1") = Ok (PyFloat (float_of_Z (-2)))
  ∧ parse_temp (line_with_temp "+inf") = Ok (PyFloat (S754_infinity false))
  ∧ parse_temp (line_with_temp "+015A") = Ok PyNone
  ∧ parse_temp (line_with_temp "") = Ok PyNone.
Proof.
  split; [apply parse_temp_total|].
  split; [apply length_slice|].
  repeat split; vm_compute; reflexivity.
Qed.

(** ** Windows *)

Lemma window_start_bounds (t d o : Z) :
  0 < d → window_start t d o ≤ t < window_start t d o + d.
Proof.
  intros Hd. unfold window_start.
  pose proof (Z.mul_div_le (t - o) d Hd).
  pose proof (Z.mul_succ_div_gt (t - o) d Hd).
  lia.
Qed.

Lemma window_start_unique (t d o k : Z) :
  0 < d → o + k * d ≤ t < o + k * d + d → window_start t d o = o + k * d.
Proof.
  intros Hd Hk. unfold window_start.
  assert (Hq : (t - o) / d = k); [|rewrite Hq; lia].
  symmetry. apply (Z.div_unique (t - o) d k (t - o - k * d)); lia.
Qed.

(** C4: for a positive duration [d] and an offset [o], every instant [t]
    lies in its window [[start, start + d)], whose start is a boundary
    [o + k * d], the greatest one not after [t]; no other window
    [[o + k * d, o + k * d + d)] holds [t]; the assignment is a function,
    and the start of a window is assigned that window again; the window
    of [t + d] is the window of [t] moved by [d]; and with 60 and 30
    minutes, 10:15 lies in [[09:30, 10:30)] and 10:45 in [[10:30, 11:30)]. *)
Theorem window_assignment (t d o : Z) :
  0 < d →
  (∃ start, assignWindow t d o = (start, start + d)
            ∧ start ≤ t < start + d
            ∧ (∃ k, start = o + k * d)
            ∧ (∀ k, o + k * d ≤ t → o + k * d ≤ start)
            ∧ (∀ k, o + k * d ≤ t < o + k * d + d → o + k * d = start))
  ∧ assignWindow t d o = assignWindow t d o
  ∧ assignWindow (fst (assignWindow t d o)) d o = assignWindow t d o
  ∧ assignWindow (t + d) d o
    = (fst (assignWindow t d o) + d, snd (assignWindow t d o) + d)
  ∧ (∀ n, assignWindow (at_time n 10 15) windowDuration startTime
          = (at_time n 9 30, at_time n 10 30))
  ∧ (∀ n, assignWindow (at_time n 10 45) windowDuration startTime
          = (at_time n 10 30, at_time n 11 30)).
Proof.
  intros Hd.
  pose proof (window_start_bounds t d o Hd) as Hb.
  split; [|split; [reflexivity|split; [|split; [|split]]]].
  - exists (window_start t d o). split; [reflexivity|]. split; [exact Hb|].
    split; [exists ((t - o) / d); unfold window_start; lia|].
    split.
    + intros k Hk. unfold window_start.
      assert (k ≤ (t - o) / d) by (apply Z.div_le_lower_bound; lia).
      nia.
    + intros k Hk. symmetry. by apply window_start_unique.
  - unfold assignWindow; simpl.
    rewrite (window_start_unique (window_start t d o) d o ((t - o) / d));
      unfold window_start; [f_equal; lia | lia | lia].
  - unfold assignWindow; simpl. unfold window_start.
    replace (t + d - o) with (t - o + 1 * d) by lia.
    rewrite Z.div_add by lia. f_equal; lia.
  - intros n. unfold assignWindow.
    rewrite (window_start_unique _ windowDuration startTime (n * 24 + 9));
      unfold windowDuration, startTime, at_time, minutes; [f_equal; lia | lia | lia].
  - intros n. unfold assignWindow.
    rewrite (window_start_unique _ windowDuration startTime (n * 24 + 10));
      unfold windowDuration, startTime, at_time, minutes; [f_equal; lia | lia | lia].
Qed.

(** 1 January 2016 is day 16801 after the epoch. *)
Lemma window_assignment_example :
  0 < windowDuration
  ∧ assignWindow (at_time 16801 10 15) windowDuration startTime
    = (at_time 16801 9 30, at_time 16801 10 30).
Proof.
  split; [reflexivity|].
  apply (window_assignment 0 windowDuration startTime). reflexivity.
Defined.

(** ** Malformed fields *)

Lemma no_digits_In (l : list ascii) :
  no_digits l = true ↔ ∀ c, In c l → is_digit c = false.
Proof.
  unfold no_digits. rewrite forallb_forall. split; intros H c Hc.
  - apply negb_true_iff. by apply H.
  - apply negb_true_iff. by apply H.
Qed.

Lemma to_ascii_digit (c : ascii) : is_digit c = false → is_digit (to_ascii c) = false.
Proof.
  intros Hc. unfold to_ascii.
  destruct (code c <? 127)%nat; [exact Hc|].
  destruct (Py_UNICODE_ISSPACE c); reflexivity.
Qed.

Lemma In_lstrip (c : ascii) (l : list ascii) : In c (lstrip l) → In c l.
Proof.
  induction l as [|a l IH]; simpl; [done|].
  destruct (Py_ISSPACE a); [right; by apply IH | done].
Qed.

Lemma In_strip (c : ascii) (l : list ascii) : In c (strip l) → In c l.
Proof.
  unfold strip. intros H.
  apply in_rev, In_lstrip in H. apply in_rev in H. by apply In_lstrip.
Qed.

Lemma remove_underscores_no_digit (l : list ascii) :
  ∀ prev l', is_digit prev = false → no_digits l = true →
             remove_underscores prev l = Some l' → l' = l.
Proof.
  induction l as [|c l IH]; intros prev l' Hprev Hl; simpl.
  - destruct (Ascii.eqb prev "_"); congruence.
  - simpl in Hl. apply andb_true_iff in Hl as [Hc Hl].
    apply negb_true_iff in Hc.
    destruct (Ascii.eqb c "_").
    + rewrite Hprev. discriminate.
    + destruct (Ascii.eqb prev "_" && negb (is_digit c)); [discriminate|].
      destruct (remove_underscores c l) as [l0|] eqn:Hr; simpl; [|discriminate].
      intros [= <-]. f_equal. by apply (IH c).
Qed.

Lemma span_digits_no_digit (l : list ascii) :
  (∀ c, In c l → is_digit c = false) → span_digits l = ([], l).
Proof.
  destruct l as [|c l]; intros H; simpl; [reflexivity|].
  rewrite (H c) by (by left). reflexivity.
Qed.

Lemma In_parse_sign (c : ascii) (l : list ascii) :
  In c (snd (parse_sign l)) → In c l.
Proof.
  destruct l as [|a l]; simpl; [done|].
  destruct (Ascii.eqb a "-"); [by right|].
  destruct (Ascii.eqb a "+"); [by right | done].
Qed.

Lemma dg_strtod_no_digit (l : list ascii) :
  (∀ c, In c l → is_digit c = false) → dg_strtod l = None.
Proof.
  intros H. unfold dg_strtod.
  destruct (parse_sign l) as [neg l1] eqn:Hs.
  assert (H1 : ∀ c, In c l1 → is_digit c = false).
  { intros c Hc. apply H, In_parse_sign. by rewrite Hs. }
  rewrite (span_digits_no_digit l1 H1).
  destruct l1 as [|c r]; [reflexivity|].
  destruct (Ascii.eqb c "."); [|reflexivity].
  rewrite span_digits_no_digit; [reflexivity|].
  intros a Ha. apply H1. by right.
Qed.

Lemma ci_prefix_lower (t : list ascii) :
  ∀ l r, ci_prefix t l = Some r → map Py_TOLOWER l = t ++ map Py_TOLOWER r.
Proof.
  induction t as [|a t IH]; intros l r; simpl.
  - intros [= <-]. reflexivity.
  - destruct l as [|c l]; [discriminate|].
    destruct (Ascii.eqb (Py_TOLOWER c) a) eqn:Hc; [|discriminate].
    apply Ascii.eqb_eq in Hc. intros Hr. simpl. rewrite Hc.
    f_equal. by apply IH.
Qed.

Lemma parse_inf_or_nan_word (l : list ascii) (x : pyfloat) :
  parse_inf_or_nan l = Some (x, []) → inf_nan_word l = true.
Proof.
  unfold parse_inf_or_nan, inf_nan_word.
  destruct (parse_sign l) as [neg l1]; cbn [snd].
  destruct (ci_prefix (chars "inf") l1) as [r|] eqn:Hinf.
  - apply ci_prefix_lower in Hinf.
    destruct (ci_prefix (chars "inity") r) as [r'|] eqn:Hity.
    + apply ci_prefix_lower in Hity. intros [= _ ->].
      rewrite Hinf, Hity. reflexivity.
    + intros [= _ ->]. rewrite Hinf. reflexivity.
  - destruct (ci_prefix (chars "nan") l1) as [r|] eqn:Hnan; [|discriminate].
    apply ci_prefix_lower in Hnan. intros [= _ ->].
    rewrite Hnan. reflexivity.
Qed.

(** A text without a digit that [float] accepts spells infinity or nan. *)
Lemma float_of_str_no_digit (s : string) :
  no_digit s = true → inf_nan_literal s = false →
  float_of_str s = Raise ValueError.
Proof.
  intros Hs Hw. unfold float_of_str.
  assert (H0 : no_digits (map to_ascii (chars s)) = true).
  { apply no_digits_In. intros c Hc. apply in_map_iff in Hc as (a & <- & Ha).
    apply to_ascii_digit. revert a Ha. by apply no_digits_In. }
  destruct (remove_underscores "000" (map to_ascii (chars s))) as [l|] eqn:Hr;
    [|reflexivity].
  apply remove_underscores_no_digit in Hr; [|reflexivity|exact H0]. subst l.
  unfold float_from_string_inner, PyOS_string_to_double.
  rewrite dg_strtod_no_digit.
  - destruct (parse_inf_or_nan _) as [[x [|c r]]|] eqn:Hp; try reflexivity.
    apply parse_inf_or_nan_word in Hp. unfold inf_nan_literal in Hw. congruence.
  - intros c Hc. apply In_strip in Hc. revert c Hc. by apply no_digits_In.
Qed.

(** [strptime] wants four digits first. *)
Lemma format_regex_no_digit (l : list ascii) :
  match l with c :: _ => is_digit c = false | [] => True end →
  format_regex l = [].
Proof.
  destruct l as [|c r]; [reflexivity|]. intros Hc.
  unfold format_regex, re_Y, two, seq, sat. simpl. rewrite Hc. reflexivity.
Qed.

Lemma strptime_no_digit (date time : string) :
  no_digit date = true → strptime (date +:+ " " +:+ time) = Raise ValueError.
Proof.
  intros Hd. unfold strptime. rewrite chars_app.
  rewrite format_regex_no_digit; [reflexivity|].
  destruct (chars date) as [|c r] eqn:Hc; simpl; [reflexivity|].
  unfold no_digit in Hd. rewrite Hc in Hd. simpl in Hd.
  apply andb_true_iff in Hd as [Hd _]. by apply negb_true_iff.
Qed.

Lemma reads_sat (p : ascii → bool) :
  (∀ c, p c = true → digit_or_space c = true) → reads_digits_and_spaces (sat p).
Proof.
  intros Hp [|c s] a r; unfold sat; [by intros ?%elem_of_nil|].
  destruct (p c) eqn:Hc; [|by intros ?%elem_of_nil].
  intros [= -> ->]%list_elem_of_singleton.
  exists [c]. split; [reflexivity|]. repeat constructor. by apply Hp.
Qed.

Lemma reads_alt {A : Type} (p q : matcher A) :
  reads_digits_and_spaces p → reads_digits_and_spaces q →
  reads_digits_and_spaces (alt p q).
Proof.
  intros Hp Hq s a r [H|H]%elem_of_app; [by apply Hp in H | by apply Hq in H].
Qed.

Lemma reads_seq {A B C : Type} (f : A → B → C) (p : matcher A) (q : matcher B) :
  reads_digits_and_spaces p → reads_digits_and_spaces q →
  reads_digits_and_spaces (seq f p q).
Proof.
  intros Hp Hq s c r. unfold seq.
  intros ([a r1] & H1 & Ha)%list_elem_of_bind.
  apply list_elem_of_bind in H1 as ([b r2] & H2 & Hb).
  apply list_elem_of_singleton in H2 as [= -> ->].
  apply Hp in Ha as (pre1 & -> & F1). apply Hq in Hb as (pre2 & -> & F2).
  exists (pre1 ++ pre2). split; [by rewrite app_assoc | by apply Forall_app].
Qed.

Lemma reads_two (p q : ascii → bool) :
  (∀ c, p c = true → digit_or_space c = true) →
  (∀ c, q c = true → digit_or_space c = true) →
  reads_digits_and_spaces (two p q).
Proof. intros Hp Hq. apply reads_seq; by apply reads_sat. Qed.

Lemma reads_spaces1 : reads_digits_and_spaces spaces1.
Proof.
  intros s. induction s as [|c s IH]; intros a r; simpl; [by intros ?%elem_of_nil|].
  destruct (Py_UNICODE_ISSPACE c) eqn:Hc; [|by intros ?%elem_of_nil].
  assert (Hok : digit_or_space c = true) by (unfold digit_or_space; rewrite Hc; apply orb_true_r).
  intros [H|H]%elem_of_app.
  - apply list_elem_of_fmap in H as ([m r'] & [= -> ->] & H).
    apply IH in H as (pre & -> & F). exists (c :: pre). split; [reflexivity|].
    by constructor.
  - apply list_elem_of_singleton in H as [= -> ->].
    exists [c]. split; [reflexivity|]. by repeat constructor.
Qed.

Lemma in_range_digit (lo hi c : ascii) :
  is_digit lo = true → is_digit hi = true → in_range lo hi c = true →
  digit_or_space c = true.
Proof.
  unfold digit_or_space, is_digit, in_range. intros Hlo Hhi Hc.
  apply andb_true_iff in Hlo as [Hlo _]. apply andb_true_iff in Hhi as [_ Hhi].
  apply andb_true_iff in Hc as [Hc1 Hc2].
  apply Nat.leb_le in Hlo, Hhi, Hc1, Hc2.
  apply orb_true_iff. left. apply andb_true_iff. split; apply Nat.leb_le; lia.
Qed.

Lemma is_char_digit_or_space (a c : ascii) :
  digit_or_space a = true → is_char a c = true → digit_or_space c = true.
Proof. unfold is_char. intros Ha Hc%Ascii.eqb_eq. by subst. Qed.

Ltac reads_class :=
  first [ apply reads_alt | apply reads_seq | apply reads_two | apply reads_sat
        | (intros ?; apply in_range_digit; reflexivity)
        | (intros ?; apply is_char_digit_or_space; reflexivity) ].

Lemma reads_format_regex : reads_digits_and_spaces format_regex.
Proof.
  assert (HY : reads_digits_and_spaces re_Y) by (unfold re_Y, is_digit; repeat reads_class).
  assert (Hm : reads_digits_and_spaces re_m) by (unfold re_m; repeat reads_class).
  assert (Hd : reads_digits_and_spaces re_d) by (unfold re_d, is_digit; repeat reads_class).
  assert (HH : reads_digits_and_spaces re_H) by (unfold re_H, is_digit; repeat reads_class).
  assert (HM : reads_digits_and_spaces re_M) by (unfold re_M, is_digit; repeat reads_class).
  intros s g r. unfold format_regex.
  intros ([Y s1] & H & HaY)%list_elem_of_bind.
  apply list_elem_of_bind in H as ([m s2] & H & Ham).
  apply list_elem_of_bind in H as ([d s3] & H & Had).
  apply list_elem_of_bind in H as ([sp s4] & H & Hasp).
  apply list_elem_of_bind in H as ([h s5] & H & HaH).
  apply list_elem_of_bind in H as ([mi s6] & H & HaM).
  apply list_elem_of_singleton in H as [= -> ->].
  apply HY in HaY as (p1 & -> & F1). apply Hm in Ham as (p2 & -> & F2).
  apply Hd in Had as (p3 & -> & F3). apply reads_spaces1 in Hasp as (p4 & -> & F4).
  apply HH in HaH as (p5 & -> & F5). apply HM in HaM as (p6 & -> & F6).
  exists (p1 ++ p2 ++ p3 ++ p4 ++ p5 ++ p6).
  split; [by rewrite <- !app_assoc | by repeat apply Forall_app_2].
Qed.

(** [strptime] refuses a text that holds anything but digits and blanks. *)
Lemma strptime_other_character (s : string) (c : ascii) :
  In c (chars s) → digit_or_space c = false → strptime s = Raise ValueError.
Proof.
  intros Hin Hc. unfold strptime.
  destruct (format_regex (chars s)) as [|[g [|c' r]] tl] eqn:Hre; try reflexivity.
  exfalso.
  destruct (reads_format_regex (chars s) g []) as (pre & Hpre & F).
  { rewrite Hre. by left. }
  rewrite app_nil_r in Hpre. subst pre.
  rewrite Forall_forall in F. apply list_elem_of_In in Hin.
  apply F in Hin. congruence.
Qed.

Lemma float_of_str_short (data : string) :
  (String.length data < 88)%nat → float_of_str (slice 87 92 data) = Raise ValueError.
Proof. intros Hlen. rewrite slice_short by lia. reflexivity. Qed.

Lemma decoded_temp_raises (data : string) :
  raises (float_of_str (slice 87 92 data)) → decoded_temp data = PyNone.
Proof. intros [e He]. unfold decoded_temp. rewrite He. reflexivity. Qed.

Lemma decoded_time_raises (data : string) :
  raises (strptime (slice 15 23 data +:+ " " +:+ slice 23 27 data)) →
  decoded_time data = PyNone.
Proof. intros [e He]. unfold decoded_time. rewrite He. reflexivity. Qed.

(** C3 as stated fails: a line of 90 characters that ends in [150] at
    character 87 keeps the temperature 15.0 and passes [filter_required];
    and the temperature text [  nan], which holds no digit, gives the
    float nan, and that record passes too. *)
Lemma short_line_keeps_temperature :
  (String.length (line_with_temp "150") < 92)%nat
  ∧ parse_temp (line_with_temp "150") = Ok (PyFloat f15)
  ∧ process_line example_directory (line_with_temp "150")
    = Ok (Some (PyDict (record (PyDatetime noon_2016_01_01)
                               (PyFloat (float_of_Z 42)) (PyFloat (float_of_Z (-88)))
                               (PyFloat f15))))
  ∧ no_digit (slice 87 92 (line_with_temp "  nan")) = true
  ∧ parse_temp (line_with_temp "  nan") = Ok (PyFloat S754_nan)
  ∧ process_line example_directory (line_with_temp "  nan")
    = Ok (Some (PyDict (record (PyDatetime noon_2016_01_01)
                               (PyFloat (float_of_Z 42)) (PyFloat (float_of_Z (-88)))
                               (PyFloat S754_nan)))).
Proof.
  split; [vm_compute; lia|].
  repeat split; vm_compute; reflexivity.
Qed.

(** C3, amended: when [float] rejects the temperature text of a line, as
    it does on every line shorter than 88 characters and on every text
    that holds no digit and spells neither infinity nor nan, the
    temperature is [None]; when [strptime] rejects its date and time
    text, as it does on every date without a digit and on every date or
    time that holds a character other than digits and blanks, the
    timestamp is [None]; and if the station key resolves to a location whose [lat]
    and [lon] [float] converts, [map_station_id_to_location] returns the
    record with that field [None], [filter_required] returns [False] on
    it, and the line is dropped without an exception. *)
Theorem malformed_field_rejected (dir loc : gmap string pyval) (latv lonv : pyval)
    (la lo : pyfloat) (data : string) :
  dir !! station_key data = Some (PyDict loc) →
  loc !! "lat" = Some latv → py_float latv = Ok la →
  loc !! "lon" = Some lonv → py_float lonv = Ok lo →
  raises (float_of_str (slice 87 92 data))
  ∨ raises (strptime (slice 15 23 data +:+ " " +:+ slice 23 27 data)) →
  (raises (float_of_str (slice 87 92 data)) → parse_temp data = Ok PyNone)
  ∧ (raises (strptime (slice 15 23 data +:+ " " +:+ slice 23 27 data)) →
     parse_time data = Ok PyNone)
  ∧ (∃ r, map_station_id_to_location (PyDict dir) data = Ok (PyDict r)
          ∧ (r !! "temp" = Some PyNone ∨ r !! "measurement_time" = Some PyNone)
          ∧ filter_required (PyDict r) = (Ok false, PyDict r))
  ∧ process_line (PyDict dir) data = Ok None
  ∧ ((String.length data < 88)%nat → raises (float_of_str (slice 87 92 data)))
  ∧ (no_digit (slice 87 92 data) = true →
     inf_nan_literal (slice 87 92 data) = false →
     raises (float_of_str (slice 87 92 data)))
  ∧ (no_digit (slice 15 23 data) = true →
     raises (strptime (slice 15 23 data +:+ " " +:+ slice 23 27 data)))
  ∧ (∀ c, In c (chars (slice 15 23 data)) ∨ In c (chars (slice 23 27 data)) →
          digit_or_space c = false →
          raises (strptime (slice 15 23 data +:+ " " +:+ slice 23 27 data))).
Proof.
  intros Hk Hlat Hla Hlon Hlo Hbad.
  assert (Hnone : is_None (decoded_time data) || is_None (decoded_temp data) = true).
  { destruct Hbad as [Hx | Hdt].
    - rewrite decoded_temp_raises by assumption. apply orb_true_r.
    - rewrite decoded_time_raises by assumption. reflexivity. }
  split; [|split; [|split; [|split; [|split; [|split; [|split]]]]]].
  - intros Hx. rewrite parse_temp_total, decoded_temp_raises by assumption.
    reflexivity.
  - intros Hdt. rewrite parse_time_total, decoded_time_raises by assumption.
    reflexivity.
  - eexists. split; [by apply (map_station_resolved dir loc latv lonv la lo)|].
    split.
    + apply orb_true_iff in Hnone as [Hn | Hn].
      * right. destruct (decoded_time data); try discriminate. reflexivity.
      * left. destruct (decoded_temp data); try discriminate. reflexivity.
    + rewrite filter_required_dict, complete_record. simpl.
      destruct (is_None (decoded_time data)), (is_None (decoded_temp data));
        try reflexivity; discriminate.
  - rewrite (process_line_resolved dir loc latv lonv la lo) by assumption.
    rewrite Hnone. reflexivity.
  - intros Hlen. exists ValueError. by apply float_of_str_short.
  - intros Hd Hw. exists ValueError. by apply float_of_str_no_digit.
  - intros Hd. exists ValueError. by apply strptime_no_digit.
  - intros c Hin Hc. exists ValueError.
    apply (strptime_other_character _ c); [|exact Hc].
    rewrite !chars_app. apply in_or_app.
    destruct Hin as [Hin | Hin]; [by left|].
    right. apply in_or_app. by right.
Qed.

Lemma malformed_field_rejected_example :
  (String.length (line_with_temp "") < 88)%nat
  ∧ raises (float_of_str (slice 87 92 (line_with_temp "")))
  ∧ parse_temp (line_with_temp "") = Ok PyNone
  ∧ process_line example_directory (line_with_temp "") = Ok None.
Proof.
  assert (Hlen : (String.length (line_with_temp "") < 88)%nat)
    by (vm_compute; lia).
  assert (Hx : raises (float_of_str (slice 87 92 (line_with_temp ""))))
    by (exists ValueError; reflexivity).
  assert (Hk : (<["725300|94846" := PyDict example_location]> ∅ : gmap string pyval)
                 !! station_key (line_with_temp "")
               = Some (PyDict example_location)) by reflexivity.
  assert (Hlat : example_location !! "lat" = Some (PyFloat (float_of_Z 42)))
    by reflexivity.
  assert (Hlon : example_location !! "lon" = Some (PyInt (-88))) by reflexivity.
  assert (Hla : py_float (PyFloat (float_of_Z 42)) = Ok (float_of_Z 42))
    by reflexivity.
  assert (Hlo : py_float (PyInt (-88)) = Ok (float_of_Z (-88))) by reflexivity.
  destruct (malformed_field_rejected _ _ _ _ _ _ _ Hk Hlat Hla Hlon Hlo
              (or_introl Hx)) as (Htemp & _ & _ & Hp & _).
  split; [exact Hlen|]. split; [exact Hx|].
  split; [apply Htemp; exact Hx | exact Hp].
Defined.

(** * Further properties of the functions *)

(** ** Enrichment, in general *)

Lemma map_station_unfold (SL : pyval) (data : string) :
  map_station_id_to_location SL data
  = (location ← py_get SL (station_key data) PyNone;
     lat ← py_get location "lat" PyNone ≫= py_float;
     lon ← py_get location "lon" PyNone ≫= py_float;
     Ok (PyDict (record (decoded_time data) (PyFloat lat) (PyFloat lon)
                        (decoded_temp data)))).
Proof.
  unfold map_station_id_to_location, get_station_location.
  fold (station_key data).
  destruct (py_get SL (station_key data) PyNone) as [location|e]; [|reflexivity].
  simpl.
  destruct (py_get location "lat" PyNone ≫= py_float) as [lat|e]; [|reflexivity].
  simpl.
  destruct (py_get location "lon" PyNone ≫= py_float) as [lon|e]; [|reflexivity].
  simpl. rewrite parse_time_total, parse_temp_total. reflexivity.
Qed.

Lemma map_station_inv (SL : pyval) (data : string) (r : pyval) :
  map_station_id_to_location SL data = Ok r →
  ∃ dir loc la lo,
    SL = PyDict dir ∧ dir !! station_key data = Some (PyDict loc)
    ∧ py_float (default PyNone (loc !! "lat")) = Ok la
    ∧ py_float (default PyNone (loc !! "lon")) = Ok lo
    ∧ r = PyDict (record (decoded_time data) (PyFloat la) (PyFloat lo)
                         (decoded_temp data)).
Proof.
  rewrite map_station_unfold.
  destruct SL as [| | | | | | |dir]; try discriminate. simpl.
  destruct (dir !! station_key data) as [location|] eqn:Hk; [|discriminate].
  simpl. destruct location as [| | | | | | |loc]; try discriminate. simpl.
  destruct (py_float (default PyNone (loc !! "lat"))) as [la|] eqn:Hla;
    [|discriminate]. simpl.
  destruct (py_float (default PyNone (loc !! "lon"))) as [lo|] eqn:Hlo;
    [|discriminate]. simpl.
  intros [= <-]. by exists dir, loc, la, lo.
Qed.

(** X1: [map_station_id_to_location] returns exactly when the directory
    is a dict that binds the station key of the line to a dict whose
    [lat] and [lon] [float] converts; the record then holds these two
    floats and what [parse_time] and [parse_temp] return. *)
Theorem map_station_returns_iff (SL : pyval) (data : string) (r : pyval) :
  map_station_id_to_location SL data = Ok r
  ↔ ∃ dir loc la lo,
      SL = PyDict dir ∧ dir !! station_key data = Some (PyDict loc)
      ∧ py_float (default PyNone (loc !! "lat")) = Ok la
      ∧ py_float (default PyNone (loc !! "lon")) = Ok lo
      ∧ r = PyDict (record (decoded_time data) (PyFloat la) (PyFloat lo)
                           (decoded_temp data)).
Proof.
  split; [apply map_station_inv|].
  intros (dir & loc & la & lo & -> & Hk & Hla & Hlo & ->).
  rewrite map_station_unfold. simpl.
  rewrite Hk. simpl. rewrite Hla. simpl. rewrite Hlo. reflexivity.
Qed.

(** X3: whether [map_station_id_to_location] raises, and what, is decided
    by the station key alone: two lines of one station raise the same
    exception or both return, whatever their dates and temperatures. *)
Theorem map_station_raises_by_key (SL : pyval) (data1 data2 : string) (e : exn) :
  station_key data1 = station_key data2 →
  map_station_id_to_location SL data1 = Raise e →
  map_station_id_to_location SL data2 = Raise e.
Proof.
  intros Hk. rewrite !map_station_unfold, Hk.
  destruct (py_get SL (station_key data2) PyNone) as [location|e']; [|done].
  simpl.
  destruct (py_get location "lat" PyNone ≫= py_float) as [lat|e']; [|done].
  simpl.
  destruct (py_get location "lon" PyNone ≫= py_float) as [lon|e']; [|done].
  discriminate.
Qed.

(** X2: a record that [map_station_id_to_location] returns has floats for
    [lat] and [lon] and nothing but a UTC timestamp or [None], and a float
    or [None], for the two decoded fields; [filter_required] is never
    decided by [lat] or [lon] on it. *)
Theorem enriched_record_shape (SL : pyval) (data : string) (r : pyval) :
  map_station_id_to_location SL data = Ok r →
  ∃ mt la lo tp,
    r = PyDict (record mt (PyFloat la) (PyFloat lo) tp)
    ∧ (mt = PyNone ∨ ∃ dt, mt = PyDatetime dt ∧ tz dt = Some UTC)
    ∧ (tp = PyNone ∨ ∃ x, tp = PyFloat x)
    ∧ filter_required r = (Ok (negb (is_None mt || is_None tp)), r).
Proof.
  intros (dir & loc & la & lo & _ & _ & _ & _ & ->)%map_station_inv.
  exists (decoded_time data), la, lo, (decoded_temp data).
  split; [reflexivity|]. split; [|split].
  - unfold decoded_time. destruct (strptime _) as [dt|]; [right|by left].
    by exists (replace_tzinfo dt UTC).
  - unfold decoded_temp. destruct (float_of_str _) as [x|]; [right|by left].
    by exists (div10 x).
  - rewrite filter_required_dict, complete_record. reflexivity.
Qed.

Lemma enriched_record_shape_example :
  ∃ mt la lo tp,
    PyDict (record (PyDatetime noon_2016_01_01) (PyFloat (float_of_Z 42))
                   (PyFloat (float_of_Z (-88))) (PyFloat f15))
    = PyDict (record mt (PyFloat la) (PyFloat lo) tp)
    ∧ (mt = PyNone ∨ ∃ dt, mt = PyDatetime dt ∧ tz dt = Some UTC)
    ∧ (tp = PyNone ∨ ∃ x, tp = PyFloat x)
    ∧ filter_required
        (PyDict (record (PyDatetime noon_2016_01_01) (PyFloat (float_of_Z 42))
                        (PyFloat (float_of_Z (-88))) (PyFloat f15)))
      = (Ok (negb (is_None mt || is_None tp)),
         PyDict (record (PyDatetime noon_2016_01_01) (PyFloat (float_of_Z 42))
                        (PyFloat (float_of_Z (-88))) (PyFloat f15))).
Proof.
  apply (enriched_record_shape example_directory example_line).
  vm_compute. reflexivity.
Defined.

Lemma map_station_raises_by_key_example :
  station_key example_line = station_key (line_with_temp "150")
  ∧ map_station_id_to_location (PyDict ∅) (line_with_temp "150")
    = Raise AttributeError.
Proof.
  split; [reflexivity|].
  apply (map_station_raises_by_key (PyDict ∅) example_line (line_with_temp "150"));
    reflexivity.
Defined.

(** ** What a match holds *)

Lemma elem_of_sat (p : ascii → bool) (s a r : list ascii) :
  (a, r) ∈ sat p s → ∃ c, s = c :: r ∧ a = [c] ∧ p c = true.
Proof.
  destruct s as [|c s]; unfold sat; [by intros ?%elem_of_nil|].
  destruct (p c) eqn:Hc; [|by intros ?%elem_of_nil].
  intros [= -> ->]%list_elem_of_singleton. by exists c.
Qed.

Lemma elem_of_two (p q : ascii → bool) (s a r : list ascii) :
  (a, r) ∈ two p q s →
  ∃ c1 c2, s = c1 :: c2 :: r ∧ a = [c1; c2] ∧ p c1 = true ∧ q c2 = true.
Proof.
  unfold two, seq. intros ([a1 r1] & H & H1)%list_elem_of_bind.
  apply list_elem_of_bind in H as ([a2 r2] & H & H2).
  apply list_elem_of_singleton in H as [= -> ->].
  apply elem_of_sat in H1 as (c1 & -> & -> & Hp).
  apply elem_of_sat in H2 as (c2 & -> & -> & Hq).
  by exists c1, c2.
Qed.

Lemma in_range_is_digit (lo hi c : ascii) :
  is_digit lo = true → is_digit hi = true → in_range lo hi c = true →
  is_digit c = true.
Proof.
  unfold is_digit, in_range. intros Hlo Hhi Hc.
  apply andb_true_iff in Hlo as [Hlo _]. apply andb_true_iff in Hhi as [_ Hhi].
  apply andb_true_iff in Hc as [Hc1 Hc2].
  apply Nat.leb_le in Hlo, Hhi, Hc1, Hc2.
  apply andb_true_iff. split; apply Nat.leb_le; lia.
Qed.

(** The characters of a class, one by one. *)
Ltac class_cases H :=
  match type of H with
  | is_char _ ?c = true => apply Ascii.eqb_eq in H; subst c
  | is_digit ?c = true => digit_case c H
  | in_range ?lo ?hi ?c = true =>
      let Hd := fresh in
      pose proof (in_range_is_digit lo hi c eq_refl eq_refl H) as Hd;
      digit_case c Hd; try discriminate H; clear H
  end.

Ltac group_range :=
  repeat match goal with
         | H : _ ∈ alt _ _ _ |- _ => apply elem_of_app in H as [H|H]
         | H : _ ∈ two _ _ _ |- _ =>
             let c1 := fresh "c" in let c2 := fresh "c" in
             let Hp := fresh in let Hq := fresh in
             apply elem_of_two in H as (c1 & c2 & -> & -> & Hp & Hq);
             class_cases Hp; class_cases Hq
         | H : _ ∈ sat _ _ |- _ =>
             let c := fresh "c" in let Hp := fresh in
             apply elem_of_sat in H as (c & -> & -> & Hp); class_cases Hp
         end;
  vm_compute; split; discriminate.

Lemma re_m_range (s a r : list ascii) :
  (a, r) ∈ re_m s → 1 ≤ int_of_group a ≤ 12.
Proof. unfold re_m. intros H. group_range. Qed.

Lemma re_d_range (s a r : list ascii) :
  (a, r) ∈ re_d s → 1 ≤ int_of_group a ≤ 31.
Proof. unfold re_d. intros H. group_range. Qed.

Lemma re_H_range (s a r : list ascii) :
  (a, r) ∈ re_H s → 0 ≤ int_of_group a ≤ 23.
Proof. unfold re_H. intros H. group_range. Qed.

Lemma re_M_range (s a r : list ascii) :
  (a, r) ∈ re_M s → 0 ≤ int_of_group a ≤ 59.
Proof. unfold re_M. intros H. group_range. Qed.

Lemma re_Y_range (s a r : list ascii) :
  (a, r) ∈ re_Y s → 0 ≤ int_of_group a ≤ 9999.
Proof.
  unfold re_Y, seq. intros ([a1 r1] & H & H1)%list_elem_of_bind.
  apply list_elem_of_bind in H as ([a2 r2] & H & H2).
  apply list_elem_of_singleton in H as [= -> ->].
  apply elem_of_two in H1 as (y1 & y2 & -> & -> & Hy1 & Hy2).
  apply elem_of_two in H2 as (y3 & y4 & -> & -> & Hy3 & Hy4).
  cbn [app]. rewrite int_of_group_digits by assumption.
  unfold digits_to_Z; simpl.
  destruct (digit_plain y1 Hy1) as (_ & _ & _ & _ & ?).
  destruct (digit_plain y2 Hy2) as (_ & _ & _ & _ & ?).
  destruct (digit_plain y3 Hy3) as (_ & _ & _ & _ & ?).
  destruct (digit_plain y4 Hy4) as (_ & _ & _ & _ & ?).
  lia.
Qed.

Lemma format_regex_range (s r : list ascii) (g : groups) :
  (g, r) ∈ format_regex s →
  0 ≤ gY g ≤ 9999 ∧ 1 ≤ gm g ≤ 12 ∧ 1 ≤ gd g ≤ 31
  ∧ 0 ≤ gH g ≤ 23 ∧ 0 ≤ gM g ≤ 59.
Proof.
  unfold format_regex.
  intros ([Y s1] & H & HaY)%list_elem_of_bind.
  apply list_elem_of_bind in H as ([m s2] & H & Ham).
  apply list_elem_of_bind in H as ([d s3] & H & Had).
  apply list_elem_of_bind in H as ([sp s4] & H & Hasp).
  apply list_elem_of_bind in H as ([h s5] & H & HaH).
  apply list_elem_of_bind in H as ([mi s6] & H & HaM).
  apply list_elem_of_singleton in H as [= -> ->]. simpl.
  apply re_Y_range in HaY. apply re_m_range in Ham. apply re_d_range in Had.
  apply re_H_range in HaH. apply re_M_range in HaM. done.
Qed.

Lemma strptime_valid (s : string) (dt : datetime) :
  strptime s = Ok dt → valid_datetime (replace_tzinfo dt UTC).
Proof.
  unfold strptime.
  destruct (format_regex (chars s)) as [|[g [|c r]] tl] eqn:Hre; try discriminate.
  assert (Hin : (g, []) ∈ format_regex (chars s)) by (rewrite Hre; by left).
  apply format_regex_range in Hin as (HY & Hm & Hd & HH & HM).
  unfold make_datetime.
  destruct ((1 <=? gY g) && (gd g <=? days_in_month (gY g) (gm g))) eqn:Hc;
    [|discriminate].
  apply andb_true_iff in Hc as [H1%Z.leb_le H2%Z.leb_le].
  intros [= <-]. unfold valid_datetime; simpl. repeat split; lia.
Qed.

Lemma decoded_time_valid (data : string) (dt : datetime) :
  decoded_time data = PyDatetime dt → valid_datetime dt.
Proof.
  unfold decoded_time.
  destruct (strptime _) as [dt0|] eqn:Hs; [|discriminate].
  intros [= <-]. by apply strptime_valid in Hs.
Qed.

(** X4: a timestamp that [parse_time] returns is an instant of the
    calendar: a year from 1 to 9999, a month, a day of that month, an
    hour below 24 and a minute below 60, no seconds, and the zone UTC. *)
Theorem parse_time_valid (data : string) (dt : datetime) :
  parse_time data = Ok (PyDatetime dt) → valid_datetime dt.
Proof.
  rewrite parse_time_total. intros [= Hdt].
  by apply (decoded_time_valid data).
Qed.

Lemma parse_time_valid_example :
  parse_time example_line = Ok (PyDatetime noon_2016_01_01)
  ∧ valid_datetime noon_2016_01_01.
Proof.
  split; [reflexivity|].
  apply (parse_time_valid example_line). reflexivity.
Defined.

Ltac class_digit H :=
  first [ exact H
        | refine (in_range_is_digit _ _ _ _ _ H); reflexivity
        | unfold is_char in H; apply Ascii.eqb_eq in H; subst; reflexivity ].

(** The text of a group: one digit or two, or a blank and a digit. *)
Ltac group_shape :=
  repeat match goal with
         | H : _ ∈ alt _ _ _ |- _ => apply elem_of_app in H as [H|H]
         | H : _ ∈ two _ _ _ |- _ =>
             let c1 := fresh "c" in let c2 := fresh "c" in
             let Hp := fresh "Hp" in let Hq := fresh "Hq" in
             apply elem_of_two in H as (c1 & c2 & -> & -> & Hp & Hq)
         | H : _ ∈ sat _ _ |- _ =>
             let c := fresh "c" in let Hp := fresh "Hp" in
             apply elem_of_sat in H as (c & -> & -> & Hp)
         end.

Lemma re_m_shape (s a r : list ascii) :
  (a, r) ∈ re_m s →
  s = a ++ r
  ∧ ((∃ c, a = [c] ∧ is_digit c = true)
     ∨ ∃ c1 c2, a = [c1; c2] ∧ is_digit c1 = true ∧ is_digit c2 = true).
Proof.
  unfold re_m. intros H. group_shape; (split; [reflexivity|]);
    first [ left; eexists; split; [reflexivity|]; class_digit Hp
          | right; do 2 eexists; split; [reflexivity|]; split;
            [class_digit Hp | class_digit Hq] ].
Qed.

Lemma re_H_shape (s a r : list ascii) :
  (a, r) ∈ re_H s →
  s = a ++ r
  ∧ ((∃ c, a = [c] ∧ is_digit c = true)
     ∨ ∃ c1 c2, a = [c1; c2] ∧ is_digit c1 = true ∧ is_digit c2 = true).
Proof.
  unfold re_H. intros H. group_shape; (split; [reflexivity|]);
    first [ left; eexists; split; [reflexivity|]; class_digit Hp
          | right; do 2 eexists; split; [reflexivity|]; split;
            [class_digit Hp | class_digit Hq] ].
Qed.

Lemma re_M_shape (s a r : list ascii) :
  (a, r) ∈ re_M s →
  s = a ++ r
  ∧ ((∃ c, a = [c] ∧ is_digit c = true)
     ∨ ∃ c1 c2, a = [c1; c2] ∧ is_digit c1 = true ∧ is_digit c2 = true).
Proof.
  unfold re_M. intros H. group_shape; (split; [reflexivity|]);
    first [ left; eexists; split; [reflexivity|]; class_digit Hp
          | right; do 2 eexists; split; [reflexivity|]; split;
            [class_digit Hp | class_digit Hq] ].
Qed.

Lemma re_d_shape (s a r : list ascii) :
  (a, r) ∈ re_d s →
  s = a ++ r
  ∧ ((∃ c, a = [c] ∧ is_digit c = true)
     ∨ (∃ c1 c2, a = [c1; c2] ∧ is_digit c1 = true ∧ is_digit c2 = true)
     ∨ ∃ c, a = [" "%char; c] ∧ is_digit c = true).
Proof.
  unfold re_d. intros H. group_shape; (split; [reflexivity|]);
    first [ left; eexists; split; [reflexivity|]; class_digit Hp
          | right; left; do 2 eexists; split; [reflexivity|]; split;
            [class_digit Hp | class_digit Hq]
          | right; right; unfold is_char in Hp; apply Ascii.eqb_eq in Hp; subst; eexists;
            split; [reflexivity|]; class_digit Hq ].
Qed.

Lemma re_Y_shape (s a r : list ascii) :
  (a, r) ∈ re_Y s →
  ∃ c1 c2 c3 c4, s = c1 :: c2 :: c3 :: c4 :: r ∧ a = [c1; c2; c3; c4].
Proof.
  unfold re_Y, seq. intros ([a1 r1] & H & H1)%list_elem_of_bind.
  apply list_elem_of_bind in H as ([a2 r2] & H & H2).
  apply list_elem_of_singleton in H as [= -> ->].
  apply elem_of_two in H1 as (y1 & y2 & -> & -> & _).
  apply elem_of_two in H2 as (y3 & y4 & -> & -> & _).
  by exists y1, y2, y3, y4.
Qed.

Lemma spaces1_shape (s a r : list ascii) :
  (a, r) ∈ spaces1 s →
  ∃ c a', a = c :: a' ∧ s = c :: a' ++ r ∧ Py_UNICODE_ISSPACE c = true
          ∧ match a' with x :: _ => Py_UNICODE_ISSPACE x = true | [] => True end.
Proof.
  revert a r. induction s as [|c s IH]; intros a r; simpl;
    [by intros ?%elem_of_nil|].
  destruct (Py_UNICODE_ISSPACE c) eqn:Hc; [|by intros ?%elem_of_nil].
  intros [H|H]%elem_of_app.
  - apply list_elem_of_fmap in H as ([m r'] & [= -> ->] & H).
    apply IH in H as (x & a' & -> & -> & Hx & _).
    by exists c, (x :: a').
  - apply list_elem_of_singleton in H as [= -> ->]. by exists c, [].
Qed.

Lemma not_digit_and_space (c : ascii) :
  is_digit c = true → Py_UNICODE_ISSPACE c = true → False.
Proof. intros Hd Hs. destruct (digit_plain c Hd) as (_ & _ & _ & ? & _). congruence. Qed.

Ltac absurd_digit_space :=
  exfalso;
  match goal with
  | Hd : is_digit ?c = true, Hs : Py_UNICODE_ISSPACE ?c = true |- _ =>
      exact (not_digit_and_space c Hd Hs)
  | Hd : is_digit " " = true |- _ => discriminate Hd
  end.

(** A full match on twelve digits around a blank takes them four, two,
    two, two and two. *)
Lemma format_regex_digits_inv (y1 y2 y3 y4 m1 m2 d1 d2 h1 h2 n1 n2 : ascii)
    (g : groups) :
  Forall (λ c, is_digit c = true) [y1; y2; y3; y4; m1; m2; d1; d2; h1; h2; n1; n2] →
  (g, []) ∈ format_regex ([y1; y2; y3; y4; m1; m2; d1; d2]
                          ++ " "%char :: [h1; h2; n1; n2]) →
  g = mk_groups (digits_to_Z [y1; y2; y3; y4]) (digits_to_Z [m1; m2])
                (digits_to_Z [d1; d2]) (digits_to_Z [h1; h2])
                (digits_to_Z [n1; n2]).
Proof.
  intros Hds.
  apply Forall_cons in Hds as [Hy1 Hds]. apply Forall_cons in Hds as [Hy2 Hds].
  apply Forall_cons in Hds as [Hy3 Hds]. apply Forall_cons in Hds as [Hy4 Hds].
  apply Forall_cons in Hds as [Hm1 Hds]. apply Forall_cons in Hds as [Hm2 Hds].
  apply Forall_cons in Hds as [Hd1 Hds]. apply Forall_cons in Hds as [Hd2 Hds].
  apply Forall_cons in Hds as [Hh1 Hds]. apply Forall_cons in Hds as [Hh2 Hds].
  apply Forall_cons in Hds as [Hn1 Hds]. apply Forall_cons in Hds as [Hn2 _].
  unfold format_regex. cbn [app].
  intros ([Y s1] & H & HaY)%list_elem_of_bind.
  apply list_elem_of_bind in H as ([m s2] & H & Ham).
  apply list_elem_of_bind in H as ([d s3] & H & Had).
  apply list_elem_of_bind in H as ([sp s4] & H & Hasp).
  apply list_elem_of_bind in H as ([h s5] & H & HaH).
  apply list_elem_of_bind in H as ([mi s6] & H & HaM).
  apply list_elem_of_singleton in H as [= -> <-].
  apply re_Y_shape in HaY as (a1 & a2 & a3 & a4 & [= <- <- <- <- <-] & ->).
  apply re_m_shape in Ham as [Hs1 Hm].
  apply re_d_shape in Had as [Hs2 Hd].
  apply spaces1_shape in Hasp as (x & sp' & -> & Hs3 & Hx & Hsp').
  apply re_H_shape in HaH as [Hs4 HH].
  apply re_M_shape in HaM as [Hs5 HM].
  subst s5 s4 s3 s2.
  destruct Hm as [(b & -> & Hb) | (b1 & b2 & -> & Hb1 & Hb2)];
    destruct Hd as [(c & -> & Hc) | [(c1 & c2 & -> & Hc1 & Hc2) | (c & -> & Hc)]];
    simplify_eq/=; try absurd_digit_space.
  destruct sp' as [|x' sp'];
    destruct HH as [(e & -> & He) | (e1 & e2 & -> & He1 & He2)];
    destruct HM as [(f & -> & Hf) | (f1 & f2 & -> & Hf1 & Hf2)];
    simplify_eq/=; try absurd_digit_space.
  rewrite !int_of_group_digits by assumption. reflexivity.
Qed.

Lemma valid_fields_spec (Y Mo D H Mi : Z) :
  valid_fields Y Mo D H Mi = true
  ↔ 1 ≤ Y ∧ 1 ≤ Mo ≤ 12 ∧ 1 ≤ D ≤ days_in_month Y Mo ∧ H ≤ 23 ∧ Mi ≤ 59.
Proof.
  unfold valid_fields. rewrite !andb_true_iff, !Z.leb_le. tauto.
Qed.

Lemma strptime_raises_ValueError (s : string) (e : exn) :
  strptime s = Raise e → e = ValueError.
Proof.
  unfold strptime, make_datetime.
  destruct (format_regex (chars s)) as [|[g [|c r]] tl]; try congruence.
  destruct (_ && _); congruence.
Qed.

Lemma strptime_digits_exact (y1 y2 y3 y4 m1 m2 d1 d2 h1 h2 n1 n2 : ascii) :
  Forall (λ c, is_digit c = true) [y1; y2; y3; y4; m1; m2; d1; d2; h1; h2; n1; n2] →
  let Y := digits_to_Z [y1; y2; y3; y4] in
  let Mo := digits_to_Z [m1; m2] in
  let D := digits_to_Z [d1; d2] in
  let H := digits_to_Z [h1; h2] in
  let Mi := digits_to_Z [n1; n2] in
  strptime (string_of_list_ascii [y1; y2; y3; y4; m1; m2; d1; d2] +:+ " "
            +:+ string_of_list_ascii [h1; h2; n1; n2])
  = if valid_fields Y Mo D H Mi then Ok (mk_datetime Y Mo D H Mi 0 0 None)
    else Raise ValueError.
Proof.
  intros Hds Y Mo D H Mi.
  destruct (valid_fields Y Mo D H Mi) eqn:Hv.
  - apply valid_fields_spec in Hv as (? & ? & ? & ? & ?).
    by apply strptime_digits.
  - destruct (strptime _) as [dt|e] eqn:Hs;
      [|by apply strptime_raises_ValueError in Hs as ->].
    exfalso. apply not_true_iff_false in Hv. apply Hv, valid_fields_spec.
    revert Hs. unfold strptime. rewrite !chars_app. unfold chars.
    rewrite !list_ascii_of_string_of_list_ascii.
    change (list_ascii_of_string " ") with [" "%char].
    destruct (format_regex _) as [|[g [|c r]] tl] eqn:Hre; try discriminate.
    assert (Hin : (g, []) ∈ format_regex
                    ([y1; y2; y3; y4; m1; m2; d1; d2] ++ [" "%char] ++ [h1; h2; n1; n2]))
      by (rewrite Hre; by left).
    pose proof (format_regex_range _ _ _ Hin) as (_ & Hm & Hd & HH & HM).
    apply format_regex_digits_inv in Hin; [|assumption]. subst g.
    unfold make_datetime. cbn [gY gm gd gH gM] in Hm, Hd, HH, HM |- *.
    fold Y Mo D H Mi in Hm, Hd, HH, HM |- *.
    destruct ((1 <=? Y) && (D <=? days_in_month Y Mo)) eqn:Hc; [|discriminate].
    apply andb_true_iff in Hc as [H1%Z.leb_le H2%Z.leb_le]. intros _. lia.
Qed.

(** X5: when characters 15-27 of a line are twelve digits, [parse_time]
    returns the timestamp they spell exactly when they name an instant:
    a year of at least 1, a month from 1 to 12, a day of that month, an
    hour up to 23 and a minute up to 59; otherwise it returns [None]. *)
Theorem parse_time_digits (data : string)
    (y1 y2 y3 y4 m1 m2 d1 d2 h1 h2 n1 n2 : ascii) :
  slice 15 23 data = string_of_list_ascii [y1; y2; y3; y4; m1; m2; d1; d2] →
  slice 23 27 data = string_of_list_ascii [h1; h2; n1; n2] →
  Forall (λ c, is_digit c = true) [y1; y2; y3; y4; m1; m2; d1; d2; h1; h2; n1; n2] →
  let Y := digits_to_Z [y1; y2; y3; y4] in
  let Mo := digits_to_Z [m1; m2] in
  let D := digits_to_Z [d1; d2] in
  let H := digits_to_Z [h1; h2] in
  let Mi := digits_to_Z [n1; n2] in
  parse_time data
  = Ok (if valid_fields Y Mo D H Mi
        then PyDatetime (mk_datetime Y Mo D H Mi 0 0 (Some UTC))
        else PyNone).
Proof.
  intros Hdate Htime Hds Y Mo D H Mi.
  rewrite parse_time_total. unfold decoded_time. rewrite Hdate, Htime.
  rewrite strptime_digits_exact by assumption. fold Y Mo D H Mi.
  destruct (valid_fields Y Mo D H Mi); reflexivity.
Qed.

Lemma parse_time_digits_example :
  parse_time example_line = Ok (PyDatetime noon_2016_01_01)
  ∧ parse_time (line_with_time "20150229" "1200") = Ok PyNone.
Proof.
  split.
  - apply (parse_time_digits example_line "2" "0" "1" "6" "0" "1" "0" "1"
             "1" "2" "0" "0"); [reflexivity | reflexivity |].
    repeat constructor.
  - apply (parse_time_digits (line_with_time "20150229" "1200")
             "2" "0" "1" "5" "0" "2" "2" "9" "1" "2" "0" "0");
      [reflexivity | reflexivity |].
    repeat constructor.
Defined.

(** ** Lines that are cut short *)

(** A full match ends with the two groups of the time: two digits at least. *)
Lemma format_regex_ends_digits (s : list ascii) (g : groups) :
  (g, []) ∈ format_regex s →
  ∃ pre x y, s = pre ++ [x; y] ∧ is_digit x = true ∧ is_digit y = true.
Proof.
  unfold format_regex.
  intros ([Y s1] & H & HaY)%list_elem_of_bind.
  apply list_elem_of_bind in H as ([m s2] & H & Ham).
  apply list_elem_of_bind in H as ([d s3] & H & Had).
  apply list_elem_of_bind in H as ([sp s4] & H & Hasp).
  apply list_elem_of_bind in H as ([h s5] & H & HaH).
  apply list_elem_of_bind in H as ([mi s6] & H & HaM).
  apply list_elem_of_singleton in H as [= -> <-].
  apply re_Y_shape in HaY as (a1 & a2 & a3 & a4 & -> & ->).
  apply re_m_shape in Ham as [-> _]. apply re_d_shape in Had as [-> _].
  apply spaces1_shape in Hasp as (x & sp' & -> & -> & _).
  apply re_H_shape in HaH as [-> HH]. apply re_M_shape in HaM as [-> HM].
  destruct HH as [(e & -> & He) | (e1 & e2 & -> & He1 & He2)];
    destruct HM as [(f & -> & Hf) | (f1 & f2 & -> & Hf1 & Hf2)].
  - exists ([a1; a2; a3; a4] ++ m ++ d ++ x :: sp'), e, f.
    split; [|done]. by rewrite <- !app_assoc.
  - exists ([a1; a2; a3; a4] ++ m ++ d ++ (x :: sp') ++ [e]), f1, f2.
    split; [|done]. by rewrite <- !app_assoc.
  - exists ([a1; a2; a3; a4] ++ m ++ d ++ (x :: sp') ++ [e1]), e2, f.
    split; [|done]. by rewrite <- !app_assoc.
  - exists ([a1; a2; a3; a4] ++ m ++ d ++ (x :: sp') ++ [e1; e2]), f1, f2.
    split; [|done]. by rewrite <- !app_assoc.
Qed.

Lemma strptime_short_time (date time : string) :
  (String.length time ≤ 1)%nat →
  strptime (date +:+ " " +:+ time) = Raise ValueError.
Proof.
  intros Hlen. unfold strptime. rewrite !chars_app.
  change (chars " ") with [" "%char].
  destruct (format_regex _) as [|[g [|c r]] tl] eqn:Hre; try reflexivity.
  exfalso.
  assert (Hin : (g, []) ∈ format_regex (chars date ++ [" "%char] ++ chars time))
    by (rewrite Hre; by left).
  apply format_regex_ends_digits in Hin as (pre & x & y & Heq & Hx & Hy).
  destruct time as [|c [|c' time]]; simpl in Hlen; [| |lia].
  - change (chars "") with (@nil ascii) in Heq. rewrite app_nil_r in Heq.
    change (pre ++ [x; y]) with (pre ++ [x] ++ [y]) in Heq.
    rewrite (app_assoc pre) in Heq. apply app_inj_tail in Heq as [_ <-].
    discriminate Hy.
  - change (chars (String c "")) with [c] in Heq.
    change (pre ++ [x; y]) with (pre ++ [x] ++ [y]) in Heq.
    rewrite (app_assoc pre), (app_assoc (chars date)) in Heq.
    apply app_inj_tail in Heq as [Heq _].
    apply app_inj_tail in Heq as [_ <-]. discriminate Hx.
Qed.

(** X6: a line shorter than 25 characters has no timestamp, whatever it
    holds, since a blank and at most one character follow the date; 25
    characters can be enough, the hour and the minute then being one
    digit each. *)
Theorem parse_time_short (data : string) :
  (String.length data < 25)%nat →
  parse_time data = Ok PyNone
  ∧ parse_time (line_with_time "20160101" "12")
    = Ok (PyDatetime (mk_datetime 2016 1 1 1 2 0 0 (Some UTC)))
  ∧ String.length (line_with_time "20160101" "12") = 25%nat.
Proof.
  intros Hlen. split; [|split; reflexivity].
  rewrite parse_time_total. unfold decoded_time.
  rewrite strptime_short_time; [reflexivity|].
  rewrite length_slice. lia.
Qed.

Lemma parse_time_short_example :
  (String.length (line_with_time "20160101" "1") < 25)%nat
  ∧ parse_time (line_with_time "20160101" "1") = Ok PyNone.
Proof.
  assert (Hlen : (String.length (line_with_time "20160101" "1") < 25)%nat)
    by (vm_compute; lia).
  split; [exact Hlen|]. by apply (parse_time_short _ Hlen).
Defined.

(** X7: no line shorter than 88 characters is ever kept, whatever the
    directory: it raises in [map_station_id_to_location] or is dropped
    by [filter_required], its temperature being [None]. *)
Theorem short_line_never_kept (SL : pyval) (data : string) (r : pyval) :
  (String.length data < 88)%nat →
  process_line SL data ≠ Ok (Some r)
  ∧ (process_line SL data = Ok None
     ∨ ∃ e, map_station_id_to_location SL data = Raise e
            ∧ process_line SL data = Raise e).
Proof.
  intros Hlen.
  assert (Hcases : process_line SL data = Ok None
                   ∨ ∃ e, map_station_id_to_location SL data = Raise e
                          ∧ process_line SL data = Raise e).
  { unfold process_line.
    destruct (map_station_id_to_location SL data) as [r'|e] eqn:Hm;
      [left | right; by exists e].
    apply map_station_inv in Hm as (dir & loc & la & lo & _ & _ & _ & _ & ->).
    simpl. rewrite filter_required_dict, complete_record. simpl.
    unfold decoded_temp. rewrite float_of_str_short by assumption. simpl.
    rewrite orb_true_r. reflexivity. }
  split; [|exact Hcases].
  destruct Hcases as [-> | (e & _ & ->)]; discriminate.
Qed.

Lemma short_line_never_kept_example :
  (String.length (line_with_temp "") < 88)%nat
  ∧ process_line example_directory (line_with_temp "")
    ≠ Ok (Some (PyDict (record (PyDatetime noon_2016_01_01) (PyFloat (float_of_Z 42))
                               (PyFloat (float_of_Z (-88))) PyNone))).
Proof.
  assert (Hlen : (String.length (line_with_temp "") < 88)%nat)
    by (vm_compute; lia).
  split; [exact Hlen|].
  apply (short_line_never_kept example_directory (line_with_temp "") _ Hlen).
Defined.

(** ** The run over the lines *)

Lemma process_line_cases (SL : pyval) (data : string) :
  (∃ e, map_station_id_to_location SL data = Raise e
        ∧ process_line SL data = Raise e)
  ∨ (∃ r, map_station_id_to_location SL data = Ok r
          ∧ process_line SL data
            = Ok (if negb (is_None (decoded_time data) || is_None (decoded_temp data))
                  then Some r else None)).
Proof.
  unfold process_line.
  destruct (map_station_id_to_location SL data) as [r|e] eqn:Hm;
    [right; exists r | left; by exists e].
  split; [reflexivity|].
  apply map_station_inv in Hm as (dir & loc & la & lo & _ & _ & _ & _ & ->).
  simpl. rewrite filter_required_dict, complete_record. reflexivity.
Qed.

(** X8: when the run returns, the records it returns are, in the order
    of the input, the records [map_station_id_to_location] makes of
    exactly those lines whose timestamp and temperature both decode: no
    such line is lost, and no other line is kept. *)
Theorem pipeline_keeps_decoded_lines (SL : pyval) (lines : list string)
    (rs : list pyval) :
  pipeline SL lines = Ok rs →
  Forall2 (λ data r, map_station_id_to_location SL data = Ok r)
          (List.filter well_decoded lines) rs.
Proof.
  revert rs. induction lines as [|data lines IH]; intros rs; simpl.
  - intros [= <-]. constructor.
  - destruct (process_line_cases SL data) as [(e & _ & ->) | (r & Hm & ->)];
      [discriminate|]. simpl.
    destruct (pipeline SL lines) as [rs0|e]; [|discriminate]. simpl.
    fold (well_decoded data).
    destruct (well_decoded data); intros [= <-].
    + constructor; [exact Hm | by apply IH].
    + by apply IH.
Qed.

Lemma pipeline_keeps_decoded_lines_example :
  pipeline example_directory [line_with_temp ""; example_line]
  = Ok [PyDict (record (PyDatetime noon_2016_01_01) (PyFloat (float_of_Z 42))
                       (PyFloat (float_of_Z (-88))) (PyFloat f15))]
  ∧ Forall2 (λ data r, map_station_id_to_location example_directory data = Ok r)
            (List.filter well_decoded [line_with_temp ""; example_line])
            [PyDict (record (PyDatetime noon_2016_01_01) (PyFloat (float_of_Z 42))
                            (PyFloat (float_of_Z (-88))) (PyFloat f15))].
Proof.
  assert (Hp : pipeline example_directory [line_with_temp ""; example_line]
               = Ok [PyDict (record (PyDatetime noon_2016_01_01)
                                    (PyFloat (float_of_Z 42))
                                    (PyFloat (float_of_Z (-88))) (PyFloat f15))])
    by (vm_compute; reflexivity).
  split; [exact Hp|].
  exact (pipeline_keeps_decoded_lines _ _ _ Hp).
Defined.

(** X9: the run raises exactly when [map_station_id_to_location] raises
    on some line, and it raises the exception of the first such line:
    one station that does not resolve fails the whole run, also when
    every line before it was good. *)
Theorem pipeline_raises_iff (SL : pyval) (lines : list string) (e : exn) :
  pipeline SL lines = Raise e
  ↔ ∃ before data after,
      lines = before ++ data :: after
      ∧ (∀ d, d ∈ before → ∃ r, map_station_id_to_location SL d = Ok r)
      ∧ map_station_id_to_location SL data = Raise e.
Proof.
  split.
  - induction lines as [|d lines IH]; simpl; [discriminate|].
    destruct (process_line_cases SL d) as [(e' & Hm & ->) | (r & Hm & ->)]; simpl.
    + intros [= ->]. exists [], d, lines. split; [reflexivity|].
      split; [by intros ? ?%elem_of_nil | exact Hm].
    + destruct (pipeline SL lines) as [rs|e'] eqn:Hp; simpl; [discriminate|].
      intros [= ->]. destruct (IH eq_refl) as (before & data & after & -> & Hb & He).
      exists (d :: before), data, after. split; [reflexivity|].
      split; [|exact He].
      intros x [->|Hx]%elem_of_cons; [by exists r | by apply Hb].
  - intros (before & data & after & -> & Hb & He).
    induction before as [|d before IH]; simpl.
    + destruct (process_line_cases SL data) as [(e' & Hm & ->) | (r & Hm & _)];
        [|congruence]. simpl. congruence.
    + destruct (Hb d) as [r Hr]; [by left|].
      destruct (process_line_cases SL d) as [(e' & Hm & _) | (r' & Hm & ->)];
        [congruence|]. simpl.
      rewrite IH; [reflexivity|]. intros x Hx. apply Hb. by right.
Qed.

(** X10: every record that leaves the run is complete and typed: a
    timestamp of the calendar in UTC, two floats for the place and a
    float for the temperature; and no more records leave than lines
    came in. *)
Theorem pipeline_kept_records (SL : pyval) (lines : list string) (rs : list pyval) :
  pipeline SL lines = Ok rs →
  (length rs ≤ length lines)%nat
  ∧ ∀ r, r ∈ rs →
         ∃ dt la lo x,
           r = PyDict (record (PyDatetime dt) (PyFloat la) (PyFloat lo) (PyFloat x))
           ∧ valid_datetime dt
           ∧ fst (filter_required r) = Ok true.
Proof.
  revert rs. induction lines as [|data lines IH]; intros rs; simpl.
  - intros [= <-]. split; [done|]. by intros r ?%elem_of_nil.
  - destruct (process_line_cases SL data) as [(e & _ & ->) | (r0 & Hm & ->)];
      [discriminate|]. simpl.
    destruct (pipeline SL lines) as [rs0|e]; [|discriminate]. simpl.
    destruct (IH rs0 eq_refl) as [Hlen Hrs].
    destruct (negb (is_None (decoded_time data) || is_None (decoded_temp data)))
      eqn:Hkeep; intros [= <-].
    + split; [simpl; lia|]. intros r [->|Hr]%elem_of_cons; [|by apply Hrs].
      apply map_station_inv in Hm
        as (dir & loc & la & lo & _ & _ & _ & _ & ->).
      apply negb_true_iff, orb_false_iff in Hkeep as [Ht Hp].
      destruct (decoded_time data) as [| | | | |dt| |] eqn:Hdt;
        try (unfold decoded_time in Hdt; destruct (strptime _); discriminate).
      destruct (decoded_temp data) as [| | |x| | | |] eqn:Hdp;
        try (unfold decoded_temp in Hdp; destruct (float_of_str _); discriminate).
      exists dt, la, lo, x. split; [reflexivity|].
      split; [by apply (decoded_time_valid data)|].
      rewrite filter_required_dict. reflexivity.
    + split; [simpl; lia | exact Hrs].
Qed.

Lemma pipeline_kept_records_example :
  pipeline example_directory [example_line; line_with_temp ""]
  = Ok [PyDict (record (PyDatetime noon_2016_01_01) (PyFloat (float_of_Z 42))
                       (PyFloat (float_of_Z (-88))) (PyFloat f15))]
  ∧ (1 ≤ 2)%nat.
Proof.
  assert (Hp : pipeline example_directory [example_line; line_with_temp ""]
               = Ok [PyDict (record (PyDatetime noon_2016_01_01)
                                    (PyFloat (float_of_Z 42))
                                    (PyFloat (float_of_Z (-88))) (PyFloat f15))])
    by (vm_compute; reflexivity).
  split; [exact Hp|].
  exact (proj1 (pipeline_kept_records _ _ _ Hp)).
Defined.

(** ** The station key *)

Lemma substring_prefix (u r : string) :
  substring 0 (String.length u) (u +:+ r) = u.
Proof.
  induction u as [|c u IH]; simpl; [by destruct r | by rewrite IH].
Qed.

Lemma substring_skip (p s : string) (n m : nat) :
  substring (String.length p + n) m (p +:+ s) = substring n m s.
Proof. induction p as [|c p IH]; simpl; [reflexivity | exact IH]. Qed.

Lemma length_app (s t : string) :
  String.length (s +:+ t) = (String.length s + String.length t)%nat.
Proof. induction s as [|c s IH]; simpl; [reflexivity | by rewrite IH]. Qed.

(** X11: a line that begins with four characters, a station code of six
    and a second code of five gives these two codes back, and the key
    under which the directory is searched is the two joined by a bar,
    whatever follows. *)
Theorem station_key_round_trip (p usaf wban rest : string) :
  String.length p = 4%nat → String.length usaf = 6%nat →
  String.length wban = 5%nat →
  parse_USAF (p +:+ usaf +:+ wban +:+ rest) = usaf
  ∧ parse_WBAN (p +:+ usaf +:+ wban +:+ rest) = wban
  ∧ station_key (p +:+ usaf +:+ wban +:+ rest) = usaf +:+ "|" +:+ wban.
Proof.
  intros Hp Hu Hw.
  assert (HU : parse_USAF (p +:+ usaf +:+ wban +:+ rest) = usaf).
  { unfold parse_USAF, slice. change (10 - 4)%nat with 6%nat.
    rewrite <- Hu at 1. rewrite <- (Nat.add_0_r 4), <- Hp.
    rewrite substring_skip. apply substring_prefix. }
  assert (HW : parse_WBAN (p +:+ usaf +:+ wban +:+ rest) = wban).
  { unfold parse_WBAN, slice. change (15 - 10)%nat with 5%nat.
    change 10%nat with (4 + 6)%nat. rewrite <- Hp at 1.
    rewrite substring_skip. rewrite <- (Nat.add_0_r 6), <- Hu at 1.
    rewrite substring_skip. rewrite <- Hw at 1. apply substring_prefix. }
  split; [exact HU|]. split; [exact HW|].
  unfold station_key. by rewrite HU, HW.
Qed.

Lemma station_key_round_trip_example :
  station_key ("0059" +:+ "725300" +:+ "94846" +:+ "2016010112004")
  = "725300|94846".
Proof.
  apply (station_key_round_trip "0059" "725300" "94846" "2016010112004");
    reflexivity.
Defined.

(** X12: the key of a line never fails and never exceeds twelve
    characters; it has all twelve from 15 characters on, shrinks with a
    shorter line, and is the bare bar for a line of at most four
    characters. *)
Theorem station_key_length (data : string) :
  String.length (station_key data)
  = (Nat.min 10 (String.length data) - 4 + 1
     + (Nat.min 15 (String.length data) - 10))%nat
  ∧ (String.length (station_key data) ≤ 12)%nat
  ∧ ((15 ≤ String.length data)%nat → String.length (station_key data) = 12%nat)
  ∧ ((String.length data ≤ 4)%nat → station_key data = "|").
Proof.
  assert (Hlen : String.length (station_key data)
                 = (Nat.min 10 (String.length data) - 4 + 1
                    + (Nat.min 15 (String.length data) - 10))%nat).
  { unfold station_key, parse_USAF, parse_WBAN.
    rewrite !length_app, !length_slice. simpl. lia. }
  split; [exact Hlen|]. split; [lia|]. split; [lia|].
  intros Hs. unfold station_key, parse_USAF, parse_WBAN.
  rewrite !slice_short by lia. reflexivity.
Qed.

(** ** The temperature as the format writes it *)

(** X13: a temperature field made of a sign and digits is read as that
    signed whole number and divided by ten; it is never [None]. *)
Theorem parse_temp_signed (data : string) (neg : bool) (ts : list ascii) :
  slice 87 92 data = string_of_list_ascii ((if neg then "-" else "+")%char :: ts) →
  Forall (λ c, is_digit c = true) ts → ts ≠ [] →
  parse_temp data
  = Ok (PyFloat (div10 (decimal_to_float neg (digits_to_Z ts) 0))).
Proof.
  intros Htemp Hts Hne. rewrite parse_temp_total. unfold decoded_temp.
  rewrite Htemp, float_of_str_signed by assumption. reflexivity.
Qed.

Lemma parse_temp_signed_example :
  parse_temp example_line = Ok (PyFloat f15).
Proof.
  apply (parse_temp_signed example_line false ["0"; "1"; "5"; "0"]%char);
    [reflexivity | repeat constructor | discriminate].
Defined.

Lemma well_formed_line_kept_example :
  process_line example_directory example_line
  = Ok (Some (PyDict (record (PyDatetime noon_2016_01_01)
                             (PyFloat (float_of_Z 42)) (PyFloat (float_of_Z (-88)))
                             (PyFloat f15)))).
Proof.
  apply (well_formed_line_kept
           (<["725300|94846" := PyDict example_location]> ∅) example_location
           (PyFloat (float_of_Z 42)) (PyInt (-88)) (float_of_Z 42) (float_of_Z (-88))
           example_line "2" "0" "1" "6" "0" "1" "0" "1" "1" "2" "0" "0"
           false ["0"; "1"; "5"; "0"]%char);
    try reflexivity; try (repeat constructor); try discriminate; vm_compute;
    try (split; discriminate); discriminate.
Defined.

(** ** The completeness predicate and other keys *)

(** X15: [filter_required] looks at its four keys only: binding or
    removing any other key of the record does not change its answer. *)
Theorem filter_required_other_keys (m : gmap string pyval) (k : string) (v : pyval) :
  k ≠ "lat" → k ≠ "lon" → k ≠ "measurement_time" → k ≠ "temp" →
  fst (filter_required (PyDict (<[k := v]> m))) = fst (filter_required (PyDict m))
  ∧ fst (filter_required (PyDict (delete k m))) = fst (filter_required (PyDict m)).
Proof.
  intros H1 H2 H3 H4. rewrite !filter_required_dict. simpl.
  unfold complete, none_at.
  rewrite !lookup_insert_ne, !lookup_delete_ne by assumption. done.
Qed.

Lemma filter_required_other_keys_example :
  fst (filter_required
         (PyDict (<["station" := PyStr "725300|94846"]>
                    (record (PyDatetime noon_2016_01_01) (PyFloat f15) (PyFloat f15)
                            (PyFloat f15)))))
  = Ok true.
Proof.
  refine (eq_trans (proj1 (filter_required_other_keys _ "station" _ _ _ _ _)) _);
    (discriminate || reflexivity).
Defined.

(** ** Loading, line by line *)

Section LoadLines.
Variable open_read : string → result string.
Variable json_loads : string → result pyval.

(** X16: only the first line of the file is decoded: what follows the
    first newline has no effect, be it malformed, and a file without a
    newline is decoded whole. *)
Theorem load_first_line_only (filename l rest : string) :
  ¬ In "010"%char (chars l) →
  (open_read filename = Ok (l +:+ String "010" rest) →
   get_station_locations_from_file open_read json_loads filename
   = json_loads (l +:+ String "010" EmptyString))
  ∧ (open_read filename = Ok l →
     get_station_locations_from_file open_read json_loads filename = json_loads l).
Proof.
  intros Hl. unfold get_station_locations_from_file. split; intros ->; simpl.
  - by rewrite readline_first_line.
  - by rewrite readline_no_newline.
Qed.

(** X17: the loader does not check what the text decodes to: when it is
    not an object, loading succeeds all the same, a run without lines
    returns nothing, and a run with a line raises [AttributeError] at
    the first one. *)
Theorem main_not_a_mapping (v : pyval) (data : string) (rest : list string) :
  get_station_locations_from_file open_read json_loads "stations_latlon.json" = Ok v →
  (∀ dir, v ≠ PyDict dir) →
  main open_read json_loads [] = Ok []
  ∧ main open_read json_loads (data :: rest) = Raise AttributeError.
Proof.
  intros Hload Hv. unfold main. rewrite Hload. simpl. split; [reflexivity|].
  unfold process_line, map_station_id_to_location, get_station_location.
  destruct v; try reflexivity. by destruct (Hv m).
Qed.
End LoadLines.

Lemma load_first_line_only_example :
  get_station_locations_from_file
    (λ _, Ok ("{}" +:+ String "010" "not json"))
    (λ s, if String.eqb s ("{}" +:+ String "010" "")
          then Ok (PyDict ∅) else Raise ValueError)
    "stations_latlon.json"
  = Ok (PyDict ∅).
Proof.
  refine (eq_trans
            (proj1 (load_first_line_only _ _ "stations_latlon.json" "{}"
                      "not json" _) eq_refl) _).
  - vm_compute. intros [H|[H|[]]]; discriminate H.
  - reflexivity.
Defined.

Lemma main_not_a_mapping_example :
  main (λ _, Ok "[]") (λ _, Ok (PyList [])) [example_line] = Raise AttributeError.
Proof.
  apply (main_not_a_mapping (λ _, Ok "[]") (λ _, Ok (PyList [])) (PyList [])
           example_line []); [reflexivity | discriminate].
Defined.
